(** * Attendance analytics dashboard: the client-side logic and the
      feature extractor's contract

    A shallow embedding of the TypeScript sources

      - [frontend/src/services/api.ts]          (request construction)
      - [frontend/src/stores/analytics.ts]      (store, derived values, actions)
      - [frontend/src/components/PerformanceTable.vue]
      - [frontend/src/components/DateRangePicker.vue]

    together with the part of the analytics core that only the specification
    describes (feature extraction).

    Conventions.  A JavaScript object used as a dictionary is a finite map of
    its own properties ([gmap string _]) below the properties it inherits from
    [Object.prototype]; arrays live in a store of locations so that in-place
    updates and copies can be told apart; numbers that arrive through JSON are
    exact rationals. *)

From Stdlib Require Import ZArith QArith List Permutation Sorted Lia Lqa Ascii.
From stdpp Require Import gmap strings list fin_maps sorting.

Local Open Scope string_scope.

(** ** JavaScript values and property lookup *)

Module JS.

(** The values that the modelled fragments can produce.  [VBuiltin name] is
    one of the function objects installed on [Object.prototype];
    [VObjectPrototype] is [Object.prototype] itself. *)
Inductive Value :=
| VUndefined
| VNaN
| VNumber (n : Z)
| VString (s : string)
| VBuiltin (name : string)
| VObjectPrototype.

(** The properties every object literal inherits.  [constructor] is the
    function [Object]; the others are functions named after the property. *)
Definition object_prototype_get (k : string) : Value :=
  if String.eqb k "constructor" then VBuiltin "Object"
  else if String.eqb k "__proto__" then VObjectPrototype
  else if String.eqb k "hasOwnProperty" then VBuiltin k
  else if String.eqb k "isPrototypeOf" then VBuiltin k
  else if String.eqb k "propertyIsEnumerable" then VBuiltin k
  else if String.eqb k "toLocaleString" then VBuiltin k
  else if String.eqb k "toString" then VBuiltin k
  else if String.eqb k "valueOf" then VBuiltin k
  else if String.eqb k "__defineGetter__" then VBuiltin k
  else if String.eqb k "__defineSetter__" then VBuiltin k
  else if String.eqb k "__lookupGetter__" then VBuiltin k
  else if String.eqb k "__lookupSetter__" then VBuiltin k
  else VUndefined.

(** [o[k]] on an object literal: own properties first, then the prototype. *)
Definition get (o : gmap string Value) (k : string) : Value :=
  match o !! k with
  | Some v => v
  | None => object_prototype_get k
  end.

(** ToBoolean. *)
Definition truthy (v : Value) : bool :=
  match v with
  | VUndefined | VNaN => false
  | VNumber n => negb (n =? 0)%Z
  | VString s => negb (String.eqb s "")
  | VBuiltin _ | VObjectPrototype => true
  end.

(** [a || b] *)
Definition or (a b : Value) : Value := if truthy a then a else b.

(** ToString of the values above, as the [+] operator needs it. *)
Definition digit (n : nat) : string :=
  String (Ascii.ascii_of_nat (48 + n)) EmptyString.

Fixpoint nat_digits (fuel n : nat) (acc : string) : string :=
  match fuel with
  | O => acc
  | S fuel' =>
      let acc' := digit (n mod 10) ++ acc in
      if (n / 10 =? 0)%nat then acc' else nat_digits fuel' (n / 10) acc'
  end.

Definition nat_to_string (n : nat) : string := nat_digits (S n) n "".

Definition Z_to_string (z : Z) : string :=
  if (z <? 0)%Z then "-" ++ nat_to_string (Z.to_nat (- z))
  else nat_to_string (Z.to_nat z).

Definition to_string (v : Value) : string :=
  match v with
  | VUndefined => "undefined"
  | VNaN => "NaN"
  | VNumber n => Z_to_string n
  | VString s => s
  | VBuiltin name => "function " ++ name ++ "() { [native code] }"
  | VObjectPrototype => "[object Object]"
  end.

(** [v + 1]: numeric addition on numbers, concatenation as soon as the left
    operand's primitive is a string (functions and objects convert to one). *)
Definition add_one (v : Value) : Value :=
  match v with
  | VNumber n => VNumber (n + 1)
  | VUndefined | VNaN => VNaN
  | VString _ | VBuiltin _ | VObjectPrototype => VString (to_string v ++ "1")
  end.

(** [o[k] = v] for a primitive [v] (a number or a string, the only values
    assigned below) on an object literal: the inherited [__proto__] setter
    ignores a primitive, every other key becomes an own property. *)
Definition set (o : gmap string Value) (k : string) (v : Value)
  : gmap string Value :=
  if String.eqb k "__proto__" then o else <[k := v]> o.

(** Numbers as results of arithmetic: a JSON number is an exact rational
    (negative zero is not told apart from zero), division can leave the
    rationals. *)
Inductive Number :=
| Finite (q : Q)
| PosInfinity
| NegInfinity
| NaN.

(** ToNumber on the values that are divided below.  A string is a number only
    when it is a numeric literal; the strings built by [add_one] begin with
    the word function or with a bracket, so they are none, and numeric
    literals, which never arise here, are not parsed. *)
Definition to_number (v : Value) : Number :=
  match v with
  | VNumber n => Finite (inject_Z n)
  | _ => NaN
  end.

Definition sign_infinity (q : Q) : Number :=
  match Qcompare q 0 with
  | Gt => PosInfinity
  | Lt => NegInfinity
  | Eq => NaN
  end.

(** [a / b] *)
Definition div (a b : Number) : Number :=
  match a, b with
  | NaN, _ | _, NaN => NaN
  | Finite x, Finite y =>
      if Qeq_bool y 0 then sign_infinity x else Finite (x / y)
  | Finite _, (PosInfinity | NegInfinity) => Finite 0
  | PosInfinity, Finite y => if Qle_bool 0 y then PosInfinity else NegInfinity
  | NegInfinity, Finite y => if Qle_bool 0 y then NegInfinity else PosInfinity
  | _, _ => NaN
  end.

(** [a * b] *)
Definition mul (a b : Number) : Number :=
  match a, b with
  | NaN, _ | _, NaN => NaN
  | Finite x, Finite y => Finite (x * y)
  | Finite x, PosInfinity | PosInfinity, Finite x => sign_infinity x
  | Finite x, NegInfinity | NegInfinity, Finite x => sign_infinity (- x)
  | PosInfinity, PosInfinity | NegInfinity, NegInfinity => PosInfinity
  | _, _ => NegInfinity
  end.

(** [a - b] *)
Definition sub (a b : Number) : Number :=
  match a, b with
  | NaN, _ | _, NaN => NaN
  | Finite x, Finite y => Finite (x - y)
  | PosInfinity, PosInfinity | NegInfinity, NegInfinity => NaN
  | PosInfinity, _ | _, NegInfinity => PosInfinity
  | NegInfinity, _ | _, PosInfinity => NegInfinity
  end.

(** Whether a comparator's result is greater than zero; [NaN] counts as
    zero. *)
Definition is_positive (n : Number) : bool :=
  match n with
  | Finite q => negb (Qle_bool q 0)
  | PosInfinity => true
  | NegInfinity | NaN => false
  end.

(** *** Arrays

    An array is a mutable object: the store maps a reference to the current
    elements.  [alloc] is what an array literal, a spread or [slice] does;
    [sort] works in place and hands back the reference it was given. *)
Definition ref := nat.

Section arrays.
Context {A : Type}.

Definition alloc (elems : list A) (h : gmap ref (list A))
  : ref * gmap ref (list A) :=
  let p := fresh (dom h) in (p, <[p := elems]> h).

(** The elements behind a reference (none for a reference the store does
    not hold, which a running program never has). *)
Definition read (p : ref) (h : gmap ref (list A)) : list A :=
  default [] (h !! p).

(** [[...a]] *)
Definition spread (p : ref) (h : gmap ref (list A))
  : ref * gmap ref (list A) :=
  alloc (read p h) h.

(** [a.slice(0, n)] *)
Definition slice_to (n : nat) (p : ref) (h : gmap ref (list A))
  : ref * gmap ref (list A) :=
  alloc (take n (read p h)) h.

(** Array.prototype.sort with a comparator.  The algorithm is the engine's,
    required to be stable, so for a consistent comparator the outcome is
    the one of any stable sort: here insertion from the right, where an
    element moves past exactly the elements it compares greater than. *)
Fixpoint insert_sorted (cmp : A → A → Number) (x : A) (l : list A)
  : list A :=
  match l with
  | [] => [x]
  | y :: l' =>
      if is_positive (cmp x y) then y :: insert_sorted cmp x l'
      else x :: y :: l'
  end.

Definition sorted_elems (cmp : A → A → Number) (l : list A) : list A :=
  foldr (insert_sorted cmp) [] l.

Definition sort (cmp : A → A → Number) (p : ref) (h : gmap ref (list A))
  : ref * gmap ref (list A) :=
  (p, alter (sorted_elems cmp) p h).
End arrays.

End JS.


(** ** services/api.ts *)

Module Api.

Record DateRange := { from : option string; to : option string }.

Record AnalyticsOverview := {
  total_workers : Q;
  active_workers : Q;
  total_attendance_records : Q;
  overview_average_daily_hours : Q;
  overview_total_work_hours : Q;
  date_range : DateRange
}.

Record ClusteringResult := {
  user_id : string;
  worker_id : string;
  name : string;
  cluster : Q;
  cluster_label : string;
  performance_score : Q;
  features : gmap string Q
}.

Record AnalysisPeriod := { date_from : string; date_to : string }.

(** [results] is a reference: the array is shared between the store, its
    derived values and the table component. *)
Record ClusteringResponse := {
  results : JS.ref;
  cluster_centers : gmap string (list Q);
  feature_names : list string;
  analysis_period : AnalysisPeriod;
  total_users : Q;
  model_accuracy : Q
}.

Record PerformanceMetrics := {
  total_work_hours : Q;
  average_daily_hours : Q;
  attendance_rate : Q;
  overtime_ratio : Q;
  punctuality_score : Q;
  consistency_score : Q;
  productivity_score : Q
}.

Record TeamPerformance := {
  tp_user_id : string;
  tp_name : string;
  tp_worker_id : string;
  tp_email : string;
  performance_metrics : PerformanceMetrics
}.

Record RankedPerformance := { ranked : TeamPerformance; rank : Q }.

Record DailyTrend := {
  date : string;
  total_hours : Q;
  total_overtime : Q;
  unique_workers : Q;
  average_hours_per_worker : Q
}.

Record TrendsSummary := {
  total_days : Q;
  average_daily_workers : Q;
  summary_average_daily_hours : Q
}.

Record DailyTrendsResponse := {
  daily_trends : list DailyTrend;
  summary : TrendsSummary
}.

(** What [api.get(url, { params })] sends. *)
Record Request := { url : string; params : gmap string JS.Value }.

(** How the promise of a request settles. *)
Inductive Reply (A : Type) :=
| Resolved (data : A)
| Rejected (reason : string).
Arguments Resolved {A} data.
Arguments Rejected {A} reason.

(** The server behind the five analytics and clustering routes. *)
Record Backend := {
  overview_route : Request → Reply AnalyticsOverview;
  team_route : Request → Reply (list TeamPerformance);
  ranking_route : Request → Reply (list RankedPerformance);
  trends_route : Request → Reply DailyTrendsResponse;
  clustering_route : Request → Reply ClusteringResponse
}.

(** [api.get]: the request goes on the wire, the route's reply comes back. *)
Definition get {A} (route : Request → Reply A) (u : string)
    (ps : gmap string JS.Value) (wire : list Request)
  : Reply A * list Request :=
  let req := {| url := u; params := ps |} in
  (route req, (wire ++ [req])%list).

(** [if (dateFrom) params.date_from = dateFrom]: an optional string is truthy
    when it is given and not empty. *)
Definition set_if_given (k : string) (arg : option string)
    (ps : gmap string JS.Value) : gmap string JS.Value :=
  match arg with
  | Some s => if String.eqb s "" then ps else <[k := JS.VString s]> ps
  | None => ps
  end.

Definition date_params (dateFrom dateTo : option string)
    (ps : gmap string JS.Value) : gmap string JS.Value :=
  set_if_given "date_to" dateTo (set_if_given "date_from" dateFrom ps).

Section apiService.
Variable server : Backend.

Definition getAnalyticsOverview (dateFrom dateTo : option string) :=
  let params := date_params dateFrom dateTo ∅ in
  get (overview_route server) "/api/v1/analytics/overview" params.

Definition getTeamPerformance (dateFrom dateTo : option string) :=
  let params := date_params dateFrom dateTo ∅ in
  get (team_route server) "/api/v1/analytics/team/performance" params.

(** [limit = 10] *)
Definition getProductivityRanking (dateFrom dateTo : option string)
    (limit : option Z) :=
  let limit := default 10%Z limit in
  let params := date_params dateFrom dateTo {["limit" := JS.VNumber limit]} in
  get (ranking_route server) "/api/v1/analytics/productivity/ranking" params.

Definition getDailyTrends (dateFrom dateTo : option string) :=
  let params := date_params dateFrom dateTo ∅ in
  get (trends_route server) "/api/v1/analytics/trends/daily" params.

(** [nClusters = 3] *)
Definition getQuickClusteringAnalysis (dateFrom dateTo : option string)
    (nClusters : option Z) :=
  let nClusters := default 3%Z nClusters in
  let params :=
    date_params dateFrom dateTo {["n_clusters" := JS.VNumber nClusters]} in
  get (clustering_route server) "/api/v1/ml/clustering/quick-analysis" params.
End apiService.

(** *** The remaining functions of [apiService] *)

Record User := {
  id : string;
  user_name : string;
  email : string;
  role : string;
  status : string;
  workerId : string;
  profileImageUrl : option string
}.

(** The routes behind the functions that the store does not use. *)
Record Services := {
  health_route : Request → Reply JS.Value;
  users_route : Request → Reply (list User);
  active_workers_route : Request → Reply (list User);
  monthly_route : Request → Reply ClusteringResponse;
  quarterly_route : Request → Reply ClusteringResponse;
  yearly_route : Request → Reply ClusteringResponse;
  model_status_route : Request → Reply JS.Value
}.

(** [if (year) params.year = year]: an optional number is truthy when it is
    given and not zero. *)
Definition set_if_nonzero (k : string) (arg : option Z)
    (ps : gmap string JS.Value) : gmap string JS.Value :=
  match arg with
  | Some n => if (n =? 0)%Z then ps else <[k := JS.VNumber n]> ps
  | None => ps
  end.

Section more.
Variable services : Services.

Definition healthCheck :=
  get (health_route services) "/health" ∅.

(** [role ? { role } : {}] *)
Definition getUsers (role : option string) :=
  let params :=
    match role with
    | Some r => if String.eqb r "" then ∅ else {["role" := JS.VString r]}
    | None => ∅
    end in
  get (users_route services) "/api/v1/users" params.

Definition getActiveWorkers :=
  get (active_workers_route services) "/api/v1/users/workers/active" ∅.

Definition getMonthlyClusteringAnalysis (year month nClusters : option Z) :=
  let nClusters := default 3%Z nClusters in
  let params :=
    set_if_nonzero "month" month
      (set_if_nonzero "year" year {["n_clusters" := JS.VNumber nClusters]}) in
  get (monthly_route services) "/api/v1/ml/clustering/monthly-analysis" params.

Definition getQuarterlyClusteringAnalysis
    (year quarter nClusters : option Z) :=
  let nClusters := default 3%Z nClusters in
  let params :=
    set_if_nonzero "quarter" quarter
      (set_if_nonzero "year" year {["n_clusters" := JS.VNumber nClusters]}) in
  get (quarterly_route services)
    "/api/v1/ml/clustering/quarterly-analysis" params.

Definition getYearlyClusteringAnalysis (year nClusters : option Z) :=
  let nClusters := default 3%Z nClusters in
  let params :=
    set_if_nonzero "year" year {["n_clusters" := JS.VNumber nClusters]} in
  get (yearly_route services) "/api/v1/ml/clustering/yearly-analysis" params.

Definition getModelStatus :=
  get (model_status_route services) "/api/v1/ml/clustering/model-status" ∅.
End more.

End Api.

(** ** stores/analytics.ts *)

Module AnalyticsStore.
Import Api.

Record State := {
  loading : bool;
  error : option string;
  overview : option AnalyticsOverview;
  teamPerformance : list TeamPerformance;
  clusteringResults : option ClusteringResponse;
  dailyTrends : option DailyTrendsResponse;
  productivityRanking : list RankedPerformance;
  dateFrom : string;
  dateTo : string
}.

Definition initial : State :=
  {| loading := false; error := None; overview := None; teamPerformance := [];
     clusteringResults := None; dailyTrends := None; productivityRanking := [];
     dateFrom := ""; dateTo := "" |}.

(** Assignments to the refs. *)
Definition set_loading (b : bool) (s : State) : State :=
  {| loading := b; error := error s; overview := overview s;
     teamPerformance := teamPerformance s;
     clusteringResults := clusteringResults s; dailyTrends := dailyTrends s;
     productivityRanking := productivityRanking s;
     dateFrom := dateFrom s; dateTo := dateTo s |}.

Definition set_error (e : option string) (s : State) : State :=
  {| loading := loading s; error := e; overview := overview s;
     teamPerformance := teamPerformance s;
     clusteringResults := clusteringResults s; dailyTrends := dailyTrends s;
     productivityRanking := productivityRanking s;
     dateFrom := dateFrom s; dateTo := dateTo s |}.

Definition set_overview (v : option AnalyticsOverview) (s : State) : State :=
  {| loading := loading s; error := error s; overview := v;
     teamPerformance := teamPerformance s;
     clusteringResults := clusteringResults s; dailyTrends := dailyTrends s;
     productivityRanking := productivityRanking s;
     dateFrom := dateFrom s; dateTo := dateTo s |}.

Definition set_teamPerformance (v : list TeamPerformance) (s : State) : State :=
  {| loading := loading s; error := error s; overview := overview s;
     teamPerformance := v;
     clusteringResults := clusteringResults s; dailyTrends := dailyTrends s;
     productivityRanking := productivityRanking s;
     dateFrom := dateFrom s; dateTo := dateTo s |}.

Definition set_clusteringResults (v : option ClusteringResponse) (s : State)
  : State :=
  {| loading := loading s; error := error s; overview := overview s;
     teamPerformance := teamPerformance s;
     clusteringResults := v; dailyTrends := dailyTrends s;
     productivityRanking := productivityRanking s;
     dateFrom := dateFrom s; dateTo := dateTo s |}.

Definition set_dailyTrends (v : option DailyTrendsResponse) (s : State)
  : State :=
  {| loading := loading s; error := error s; overview := overview s;
     teamPerformance := teamPerformance s;
     clusteringResults := clusteringResults s; dailyTrends := v;
     productivityRanking := productivityRanking s;
     dateFrom := dateFrom s; dateTo := dateTo s |}.

Definition set_productivityRanking (v : list RankedPerformance) (s : State)
  : State :=
  {| loading := loading s; error := error s; overview := overview s;
     teamPerformance := teamPerformance s;
     clusteringResults := clusteringResults s; dailyTrends := dailyTrends s;
     productivityRanking := v;
     dateFrom := dateFrom s; dateTo := dateTo s |}.

(** *** Computed values *)

Record DistributionEntry := {
  label : string;
  count : JS.Value;
  percentage : JS.Number
}.

(** The body of the [forEach]:
    [distribution[l] = (distribution[l] || 0) + 1]. *)
Definition tally (distribution : gmap string JS.Value)
    (result : ClusteringResult) : gmap string JS.Value :=
  let l := cluster_label result in
  JS.set distribution l
    (JS.add_one (JS.or (JS.get distribution l) (JS.VNumber 0))).

Definition distribution_of (rs : list ClusteringResult)
  : gmap string JS.Value :=
  foldl tally ∅ rs.

(** [Object.entries(distribution).map(...)]; the entries come in the map's
    order here, in the order of first insertion in the engine. *)
Definition clusterDistribution (s : State)
    (h : gmap JS.ref (list ClusteringResult)) : list DistributionEntry :=
  match clusteringResults s with
  | None => []
  | Some response =>
      let distribution := distribution_of (JS.read (results response) h) in
      (λ '(l, c),
         {| label := l; count := c;
            percentage :=
              JS.mul (JS.div (JS.to_number c)
                             (JS.Finite (total_users response)))
                     (JS.Finite 100) |})
        <$> map_to_list distribution
  end.

Definition by_score_descending (a b : ClusteringResult) : JS.Number :=
  JS.sub (JS.Finite (performance_score b)) (JS.Finite (performance_score a)).

Definition topPerformers (s : State) (h : gmap JS.ref (list ClusteringResult))
  : JS.ref * gmap JS.ref (list ClusteringResult) :=
  match clusteringResults s with
  | None => JS.alloc [] h
  | Some response =>
      let '(copy, h) := JS.spread (results response) h in
      let '(sorted, h) := JS.sort by_score_descending copy h in
      JS.slice_to 5 sorted h
  end.

(** *** Actions

    Each action is [try { ... await ... } catch { ... } finally { ... }];
    the awaited call contributes its reply and the request it put on the
    wire. *)
Section actions.
Variable server : Backend.

Definition fetchOverview (from to : option string)
    (s : State) (wire : list Request) : State * list Request :=
  let s := set_error None (set_loading true s) in
  let '(reply, wire) := getAnalyticsOverview server from to wire in
  let s := match reply with
           | Resolved data => set_overview (Some data) s
           | Rejected _ =>
               set_error (Some "Failed to fetch analytics overview") s
           end in
  (set_loading false s, wire).

Definition fetchTeamPerformance (from to : option string)
    (s : State) (wire : list Request) : State * list Request :=
  let s := set_error None (set_loading true s) in
  let '(reply, wire) := getTeamPerformance server from to wire in
  let s := match reply with
           | Resolved data => set_teamPerformance data s
           | Rejected _ =>
               set_error (Some "Failed to fetch team performance") s
           end in
  (set_loading false s, wire).

(** [clusters = 3] *)
Definition fetchClusteringAnalysis (from to : option string)
    (clusters : option Z) (s : State) (wire : list Request)
  : State * list Request :=
  let clusters := default 3%Z clusters in
  let s := set_error None (set_loading true s) in
  let '(reply, wire) :=
    getQuickClusteringAnalysis server from to (Some clusters) wire in
  let s := match reply with
           | Resolved data => set_clusteringResults (Some data) s
           | Rejected _ =>
               set_error (Some "Failed to fetch clustering analysis") s
           end in
  (set_loading false s, wire).

Definition fetchDailyTrends (from to : option string)
    (s : State) (wire : list Request) : State * list Request :=
  let s := set_error None (set_loading true s) in
  let '(reply, wire) := getDailyTrends server from to wire in
  let s := match reply with
           | Resolved data => set_dailyTrends (Some data) s
           | Rejected _ => set_error (Some "Failed to fetch daily trends") s
           end in
  (set_loading false s, wire).

(** [limit = 10] *)
Definition fetchProductivityRanking (from to : option string)
    (limit : option Z) (s : State) (wire : list Request)
  : State * list Request :=
  let limit := default 10%Z limit in
  let s := set_error None (set_loading true s) in
  let '(reply, wire) :=
    getProductivityRanking server from to (Some limit) wire in
  let s := match reply with
           | Resolved data => set_productivityRanking data s
           | Rejected _ =>
               set_error (Some "Failed to fetch productivity ranking") s
           end in
  (set_loading false s, wire).
End actions.

(** An action runs in two steps around its [await]: it marks the store as
    loading and clears the error, and when the call settles, possibly after
    other actions have run, it stores the data or the message and clears
    [loading]. *)
Definition enter (s : State) : State := set_error None (set_loading true s).

Definition settle {A} (store : A → State → State) (message : string)
    (reply : Reply A) (s : State) : State :=
  set_loading false
    match reply with
    | Resolved data => store data s
    | Rejected _ => set_error (Some message) s
    end.

(** *** The remaining refs, computed values and actions *)

Definition set_dateFrom (v : string) (s : State) : State :=
  {| loading := loading s; error := error s; overview := overview s;
     teamPerformance := teamPerformance s;
     clusteringResults := clusteringResults s; dailyTrends := dailyTrends s;
     productivityRanking := productivityRanking s;
     dateFrom := v; dateTo := dateTo s |}.

Definition set_dateTo (v : string) (s : State) : State :=
  {| loading := loading s; error := error s; overview := overview s;
     teamPerformance := teamPerformance s;
     clusteringResults := clusteringResults s; dailyTrends := dailyTrends s;
     productivityRanking := productivityRanking s;
     dateFrom := dateFrom s; dateTo := v |}.

Definition hasData (s : State) : bool :=
  match overview s with Some _ => true | None => false end.

(** [x || 0] on a JSON number. *)
Definition or_zero (x : option Q) : Q := default 0%Q x.

Definition totalWorkers (s : State) : Q := or_zero (total_workers <$> overview s).

Definition activeWorkers (s : State) : Q :=
  or_zero (active_workers <$> overview s).

Definition modelAccuracy (s : State) : Q :=
  or_zero (model_accuracy <$> clusteringResults s).

Definition setDateRange (from to : string) (s : State) : State :=
  set_dateTo to (set_dateFrom from s).

Definition clearError (s : State) : State := set_error None s.

(** [from || ''] *)
Definition or_empty (x : option string) : string := default "" x.

(** The five actions that [fetchAllData] hands to [Promise.all], in the
    order of the array literal. *)
Inductive Fetch := Overview | Team | Clustering | Trends | Ranking.

Definition all_fetches : list Fetch :=
  [Overview; Team; Clustering; Trends; Ranking].

(** A call that has been made and whose reply is under way. *)
Inductive Pending :=
| PendingOverview (reply : Reply AnalyticsOverview)
| PendingTeam (reply : Reply (list TeamPerformance))
| PendingClustering (reply : Reply ClusteringResponse)
| PendingTrends (reply : Reply DailyTrendsResponse)
| PendingRanking (reply : Reply (list RankedPerformance)).

(** What an action's continuation does once its reply is there: the [try]
    assignment or the [catch], then the [finally]. *)
Definition resume (p : Pending) (s : State) : State :=
  match p with
  | PendingOverview reply =>
      settle (λ d, set_overview (Some d))
        "Failed to fetch analytics overview" reply s
  | PendingTeam reply =>
      settle set_teamPerformance "Failed to fetch team performance" reply s
  | PendingClustering reply =>
      settle (λ d, set_clusteringResults (Some d))
        "Failed to fetch clustering analysis" reply s
  | PendingTrends reply =>
      settle (λ d, set_dailyTrends (Some d))
        "Failed to fetch daily trends" reply s
  | PendingRanking reply =>
      settle set_productivityRanking
        "Failed to fetch productivity ranking" reply s
  end.

Section fetchAllData.
Variable server : Backend.

(** An action up to its [await]: the call it makes, with the defaults of
    [fetchClusteringAnalysis] and [fetchProductivityRanking]. *)
Definition call (from to : option string) (a : Fetch) (wire : list Request)
  : Pending * list Request :=
  match a with
  | Overview =>
      let '(reply, wire) := getAnalyticsOverview server from to wire in
      (PendingOverview reply, wire)
  | Team =>
      let '(reply, wire) := getTeamPerformance server from to wire in
      (PendingTeam reply, wire)
  | Clustering =>
      let '(reply, wire) :=
        getQuickClusteringAnalysis server from to (Some 3%Z) wire in
      (PendingClustering reply, wire)
  | Trends =>
      let '(reply, wire) := getDailyTrends server from to wire in
      (PendingTrends reply, wire)
  | Ranking =>
      let '(reply, wire) :=
        getProductivityRanking server from to (Some 10%Z) wire in
      (PendingRanking reply, wire)
  end.

(** [fetchAllData]: the two date refs are set, the five actions run one
    after the other up to their [await] (each marks the store as loading,
    clears the error and makes its call), and their continuations run in the
    order [arrival] in which the replies come in. *)
Definition fetchAllData (from to : option string) (arrival : list Fetch)
    (s : State) (wire : list Request) : State * list Request :=
  let s := set_dateFrom (or_empty from) s in
  let s := set_dateTo (or_empty to) s in
  let s := enter s in
  let '(p_overview, wire) := call from to Overview wire in
  let s := enter s in
  let '(p_team, wire) := call from to Team wire in
  let s := enter s in
  let '(p_clustering, wire) := call from to Clustering wire in
  let s := enter s in
  let '(p_trends, wire) := call from to Trends wire in
  let s := enter s in
  let '(p_ranking, wire) := call from to Ranking wire in
  let pending (a : Fetch) : Pending :=
    match a with
    | Overview => p_overview
    | Team => p_team
    | Clustering => p_clustering
    | Trends => p_trends
    | Ranking => p_ranking
    end in
  (foldl (λ s a, resume (pending a) s) s arrival, wire).
End fetchAllData.

End AnalyticsStore.

(** ** components/PerformanceTable.vue *)

Module PerformanceTable.
Import Api.

(** [a.features[sortBy] || 0] as an operand of [-]: an own property of the
    parsed object is the number itself, a missing one is [0], and a name
    that resolves on [Object.prototype] yields a function or an object, which
    the subtraction turns into [NaN]. *)
Definition feature_operand (f : gmap string Q) (k : string) : JS.Number :=
  match f !! k with
  | Some q => JS.Finite q
  | None =>
      match JS.object_prototype_get k with
      | JS.VUndefined => JS.Finite 0
      | _ => JS.NaN
      end
  end.

Definition comparator (sortBy : string) (a b : ClusteringResult) : JS.Number :=
  if String.eqb sortBy "performance_score" then
    JS.sub (JS.Finite (performance_score b)) (JS.Finite (performance_score a))
  else
    let aValue := feature_operand (features a) sortBy in
    let bValue := feature_operand (features b) sortBy in
    JS.sub bValue aValue.

Definition sortedEmployees (employees : JS.ref) (sortBy : string)
    (h : gmap JS.ref (list ClusteringResult))
  : JS.ref * gmap JS.ref (list ClusteringResult) :=
  let '(copy, h) := JS.spread employees h in
  JS.sort (comparator sortBy) copy h.

Definition classes : gmap string JS.Value :=
  <["High Performer" := JS.VString "bg-green-100 text-green-800"]>
  (<["Good Performer" := JS.VString "bg-blue-100 text-blue-800"]>
  (<["Average Performer" := JS.VString "bg-yellow-100 text-yellow-800"]>
  (<["Needs Improvement" := JS.VString "bg-red-100 text-red-800"]> ∅))).

Definition getClusterBadgeClass (clusterLabel : string) : JS.Value :=
  JS.or (JS.get classes clusterLabel) (JS.VString "bg-gray-100 text-gray-800").

(** *** Initials

    Strings are sequences of characters; the model of [toUpperCase] is the
    engine's on ASCII text. *)

(** [s.split(' ')]: the pieces between the separators, one more than there
    are separators. *)
Fixpoint split (sep : Ascii.ascii) (s : string) : list string :=
  match s with
  | EmptyString => [EmptyString]
  | String c rest =>
      if Ascii.eqb c sep then EmptyString :: split sep rest
      else match split sep rest with
           | word :: words => String c word :: words
           | [] => [String c EmptyString]
           end
  end.

(** [word.charAt(0)] *)
Definition charAt0 (word : string) : string :=
  match word with
  | EmptyString => EmptyString
  | String c _ => String c EmptyString
  end.

Definition upper_char (c : Ascii.ascii) : Ascii.ascii :=
  let n := Ascii.nat_of_ascii c in
  if (97 <=? n)%nat && (n <=? 122)%nat then Ascii.ascii_of_nat (n - 32)
  else c.

Fixpoint toUpperCase (s : string) : string :=
  match s with
  | EmptyString => EmptyString
  | String c rest => String (upper_char c) (toUpperCase rest)
  end.

(** [s.slice(0, 2)] *)
Definition slice2 (s : string) : string := String.substring 0 2 s.

Definition getInitials (name : string) : string :=
  slice2 (toUpperCase (String.concat "" (charAt0 <$> split " "%char name))).

(** [Math.min(employee.performance_score, 100)], the width of the bar in
    percent. *)
Definition bar_width (performance_score : Q) : Q :=
  if Qle_bool performance_score 100 then performance_score else 100.

End PerformanceTable.

(** ** Calendar arithmetic behind [Date] *)

Module Calendar.
Local Open Scope Z_scope.

Definition msPerDay : Z := 86400000.

(** Day number (days since 1970-01-01) of a proleptic Gregorian date, month
    in 1..12. *)
Definition days_from_civil (y m d : Z) : Z :=
  let y' := if m <=? 2 then y - 1 else y in
  let era := y' / 400 in
  let yoe := y' - era * 400 in
  let mp := if m >? 2 then m - 3 else m + 9 in
  let doy := (153 * mp + 2) / 5 + d - 1 in
  let doe := yoe * 365 + yoe / 4 - yoe / 100 + doy in
  era * 146097 + doe - 719468.

(** Year, month (1..12) and day of a day number. *)
Definition civil_from_days (z : Z) : Z * Z * Z :=
  let z' := z + 719468 in
  let era := z' / 146097 in
  let doe := z' - era * 146097 in
  let yoe := (doe - doe / 1460 + doe / 36524 - doe / 146096) / 365 in
  let doy := doe - (365 * yoe + yoe / 4 - yoe / 100) in
  let mp := (5 * doy + 2) / 153 in
  let d := doy - (153 * mp + 2) / 5 + 1 in
  let m := if mp <? 10 then mp + 3 else mp - 9 in
  let y := yoe + era * 400 in
  (if m <=? 2 then y + 1 else y, m, d).

Definition is_leap (y : Z) : bool :=
  ((y mod 4 =? 0) && negb (y mod 100 =? 0)) || (y mod 400 =? 0).

Definition days_in_month (y m : Z) : Z :=
  if m =? 2 then (if is_leap y then 29 else 28)
  else if (m =? 4) || (m =? 6) || (m =? 9) || (m =? 11) then 30
  else 31.

Definition next_month (y m : Z) : Z * Z :=
  if m =? 12 then (y + 1, 1) else (y, m + 1).

Definition previous_month (y m : Z) : Z * Z :=
  if m =? 1 then (y - 1, 12) else (y, m - 1).

(** [YYYY-MM-DD], with the six-digit signed year of [toISOString] outside
    0..9999. *)
Definition pad (width : nat) (n : Z) : string :=
  let digits := JS.nat_to_string (Z.to_nat n) in
  (String.concat "" (repeat "0" (width - String.length digits)) ++ digits)%string.

Definition iso_year (y : Z) : string :=
  if (0 <=? y) && (y <=? 9999) then pad 4 y
  else if y <? 0 then ("-" ++ pad 6 (- y))%string
  else ("+" ++ pad 6 y)%string.

Definition iso_date (ymd : Z * Z * Z) : string :=
  let '(y, m, d) := ymd in
  (iso_year y ++ "-" ++ pad 2 m ++ "-" ++ pad 2 d)%string.

End Calendar.

(** ** components/DateRangePicker.vue *)

Module DateRangePicker.
Import Calendar.
Local Open Scope Z_scope.

Inductive Event :=
| UpdateDateFrom (value : string)
| UpdateDateTo (value : string)
| Apply.

Record Picker := { localDateFrom : string; localDateTo : string }.

Definition updateDates (c : Picker) : list Event :=
  [UpdateDateFrom (localDateFrom c); UpdateDateTo (localDateTo c)].

Definition clearDates (c : Picker) : Picker * list Event :=
  let c := {| localDateFrom := ""; localDateTo := "" |} in
  (c, updateDates c).

Definition applyFilter : list Event := [Apply].

(** A [Date] is its time value, milliseconds since the epoch in UTC.  The
    host's zone is a fixed offset [tz], in minutes east of UTC. *)
Section host.
Variable tz : Z.

Definition localTZA : Z := tz * 60000.

(** [now.getFullYear()], [now.getMonth()] (0-based): fields of local time. *)
Definition getFullYear (t : Z) : Z :=
  let '(y, _, _) := civil_from_days ((t + localTZA) / msPerDay) in y.

Definition getMonth (t : Z) : Z :=
  let '(_, m, _) := civil_from_days ((t + localTZA) / msPerDay) in m - 1.

(** [new Date(year, month, date)]: midnight of that local day, where months
    and days outside their range carry over, and a year in 0..99 means
    19xx. *)
Definition new_Date (year month date : Z) : Z :=
  let year := if (0 <=? year) && (year <=? 99) then 1900 + year else year in
  let ym := year + month / 12 in
  let mn := month mod 12 in
  let day := days_from_civil ym (mn + 1) 1 + date - 1 in
  day * msPerDay - localTZA.

(** [d.toISOString().split('T')[0]]: the calendar date of the time value
    in UTC. *)
Definition toISOString_date (t : Z) : string :=
  iso_date (civil_from_days (t / msPerDay)).

Definition setCurrentMonth (now : Z) (c : Picker) : Picker * list Event :=
  let firstDay := new_Date (getFullYear now) (getMonth now) 1 in
  let lastDay := new_Date (getFullYear now) (getMonth now + 1) 0 in
  let c := {| localDateFrom := toISOString_date firstDay;
              localDateTo := toISOString_date lastDay |} in
  (c, updateDates c).

Definition setLastMonth (now : Z) (c : Picker) : Picker * list Event :=
  let firstDay := new_Date (getFullYear now) (getMonth now - 1) 1 in
  let lastDay := new_Date (getFullYear now) (getMonth now) 0 in
  let c := {| localDateFrom := toISOString_date firstDay;
              localDateTo := toISOString_date lastDay |} in
  (c, updateDates c).
End host.

(** What the two shortcuts are meant to emit: the first and the last day of
    the month that holds local day [(y, m, _)], and of the month before. *)
Definition month_bounds (y m : Z) : string * string :=
  (iso_date (y, m, 1), iso_date (y, m, days_in_month y m)).

(** The same bounds, each one day early. *)
Definition month_bounds_day_early (y m : Z) : string * string :=
  let '(py, pm) := previous_month y m in
  (iso_date (py, pm, days_in_month py pm),
   iso_date (y, m, days_in_month y m - 1)).

Definition local_date (tz now : Z) : Z * Z * Z :=
  civil_from_days ((now + tz * 60000) / msPerDay).

End DateRangePicker.

(** ** components/ClusterChart.vue *)

Module ClusterChart.

Definition clusterColors : list string :=
  ["#ef4444"; "#f59e0b"; "#10b981"; "#3b82f6"].

(** [clusterColors[index % clusterColors.length]] for an integer index: [%]
    keeps the sign of the index, a negative position holds nothing, and the
    negative zero of a negative multiple of four is position 0. *)
Definition getClusterColor (index : Z) : JS.Value :=
  let position := Z.rem index (Z.of_nat (length clusterColors)) in
  if (position <? 0)%Z then JS.VUndefined
  else match clusterColors !! Z.to_nat position with
       | Some colour => JS.VString colour
       | None => JS.VUndefined
       end.

(** The colours of the chart's segments:
    [props.clusterData.map((_, index) => getClusterColor(index))]. *)
Definition segment_colours {A} (clusterData : list A) : list JS.Value :=
  imap (λ index _, getClusterColor (Z.of_nat index)) clusterData.

End ClusterChart.

(** ** components/StatCard.vue *)

Module StatCard.

(** [trend.startsWith(prefix)] for a one-character prefix. *)
Definition startsWith (c : Ascii.ascii) (s : string) : bool :=
  match s with
  | String c' _ => Ascii.eqb c' c
  | EmptyString => false
  end.

Definition trendClass (trend : option string) : string :=
  match trend with
  | None => ""
  | Some t =>
      if String.eqb t "" then ""
      else
        let isPositive :=
          startsWith "+"%char t || negb (startsWith "-"%char t) in
        if isPositive then "text-green-600" else "text-red-600"
  end.

End StatCard.

(** ** App.vue *)

Module App.
Import Api AnalyticsStore.

(** The refs of the component. *)
Record View := {
  apiStatus : bool;
  dateFrom : string;
  dateTo : string
}.

Definition initial : View :=
  {| apiStatus := false; dateFrom := ""; dateTo := "" |}.

(** [v-model:date-from] and [v-model:date-to]: the picker's update events
    assign the refs; [apply] is handled by [handleFilterApply]. *)
Definition receive (e : DateRangePicker.Event) (v : View) : View :=
  match e with
  | DateRangePicker.UpdateDateFrom value =>
      {| apiStatus := apiStatus v; dateFrom := value; dateTo := dateTo v |}
  | DateRangePicker.UpdateDateTo value =>
      {| apiStatus := apiStatus v; dateFrom := dateFrom v; dateTo := value |}
  | DateRangePicker.Apply => v
  end.

(** [dateFrom.value || undefined] *)
Definition or_undefined (value : string) : option string :=
  if String.eqb value "" then None else Some value.

(** The panel that the template's [v-if] chain shows. *)
Inductive Panel :=
| LoadingPanel
| ErrorPanel (message : string)
| Dashboard
| EmptyPanel.

Definition panel (s : State) : Panel :=
  if loading s && negb (hasData s) then LoadingPanel
  else
    match error s with
    | Some message =>
        if String.eqb message "" then
          (if hasData s then Dashboard else EmptyPanel)
        else ErrorPanel message
    | None => if hasData s then Dashboard else EmptyPanel
    end.

Section handlers.
Variable server : Backend.
Variable services : Services.

Definition checkApiStatus (v : View) (wire : list Request)
  : View * list Request :=
  let '(reply, wire) := healthCheck services wire in
  let status := match reply with
                | Resolved _ => true
                | Rejected _ => false
                end in
  ({| apiStatus := status; dateFrom := dateFrom v; dateTo := dateTo v |},
   wire).

Definition handleInitialLoad (arrival : list Fetch) (s : State)
    (wire : list Request) : State * list Request :=
  fetchAllData server None None arrival s wire.

Definition handleFilterApply (arrival : list Fetch) (v : View) (s : State)
    (wire : list Request) : State * list Request :=
  let from := or_undefined (dateFrom v) in
  let to := or_undefined (dateTo v) in
  fetchAllData server from to arrival s wire.

Definition handleRetry (arrival : list Fetch) (s : State)
    (wire : list Request) : State * list Request :=
  handleInitialLoad arrival (clearError s) wire.

(** [onMounted]: the health check, and the initial load only when it
    succeeded. *)
Definition onMounted (arrival : list Fetch) (v : View) (s : State)
    (wire : list Request) : View * State * list Request :=
  let '(v, wire) := checkApiStatus v wire in
  if apiStatus v then
    let '(s, wire) := handleInitialLoad arrival s wire in (v, s, wire)
  else (v, s, wire).
End handlers.

End App.

(** ** The analytics core (feature extraction)

    The Python services behind the routes are not among the sources; the
    definitions of this module follow the specification's sections 3, 4.1
    and 7. *)

Module Core.
Local Open Scope Q_scope.

Inductive ErrorKind :=
| InsufficientData
| EmptyDataset
| ModelNotFound
| InvalidConfiguration.

Inductive Result (A : Type) :=
| Ok (value : A)
| Err (kind : ErrorKind).
Arguments Ok {A} value.
Arguments Err {A} kind.

(** Modelled from the spec: the AttendanceRecord entity of section 3.  A
    calendar date is its day number, a clock time is minutes after
    midnight. *)
Record AttendanceRecord := {
  employee : string;
  day : Z;
  clock_in : option Z;
  clock_out : option Z;
  worked_minutes : Z;
  overtime_minutes : Z;
  work_description : string;
  approved : bool
}.

(** Modelled from the spec: the FeatureVector of section 3, in the fixed
    feature order, scores on the percentage scale. *)
Record FeatureVector := {
  total_work_hours : Q;
  attendance_rate : Q;
  punctuality_score : Q;
  consistency_score : Q;
  productivity_score : Q;
  overtime_ratio : Q;
  average_daily_hours : Q
}.

Definition clamp (lo hi x : Q) : Q :=
  if Qle_bool x lo then lo else if Qle_bool hi x then hi else x.

(** "All ratios guard against division by zero by returning 0". *)
Definition ratio (a b : Q) : Q := if Qeq_bool b 0 then 0 else a / b.

Definition sumQ (l : list Q) : Q := foldr Qplus 0 l.

Definition count_of {A} (l : list A) : Q := inject_Z (Z.of_nat (length l)).

(** An absent bound is unbounded on that side; the range is inclusive. *)
Definition in_window (date_from date_to : option Z) (d : Z) : bool :=
  match date_from with Some a => (a <=? d)%Z | None => true end
  && match date_to with Some b => (d <=? b)%Z | None => true end.

Definition distinct_days (rs : list AttendanceRecord) : list Z :=
  remove_dups (day <$> rs).

Section extractor.
(** Configuration: the calendar of expected working days, the punctuality
    threshold (minutes after midnight), and the two numeric routines the
    specification leaves open: the square root behind the standard
    deviation and the productivity heuristic. *)
Variable working_day : Z → bool.
Variable punctuality_threshold : Z.
Variable sqrt : Q → Q.
Variable productivity_heuristic : list AttendanceRecord → Q.

Definition qualifying (date_from date_to : option Z) (r : AttendanceRecord)
  : bool :=
  approved r && in_window date_from date_to (day r).

(** "Count of weekdays (or a configured calendar) within the window; if
    the window is open-ended, the distinct dates present in the data". *)
Definition expected_days (date_from date_to : option Z)
    (rs : list AttendanceRecord) : list Z :=
  match date_from, date_to with
  | Some a, Some b =>
      filter (λ d, working_day d = true) (seqZ a (b - a + 1))
  | _, _ => distinct_days rs
  end.

Definition has_record (rs : list AttendanceRecord) (d : Z) : bool :=
  existsb (λ r, (day r =? d)%Z) rs.

Definition on_time (rs : list AttendanceRecord) (d : Z) : bool :=
  existsb (λ r, (day r =? d)%Z
                && match clock_in r with
                   | Some t => (t <=? punctuality_threshold)%Z
                   | None => false
                   end) rs.

(** Records in progress (no clock-out) stay out of the duration-based
    features. *)
Definition completed (rs : list AttendanceRecord) : list AttendanceRecord :=
  filter (λ r, is_Some (clock_out r)) rs.

Definition hours (minutes : Z) : Q := inject_Z minutes / 60.

(** Worked hours per day, the records of one day summed first. *)
Definition daily_hours (rs : list AttendanceRecord) : list Q :=
  (λ d, sumQ ((λ r, hours (worked_minutes r))
                <$> filter (λ r, day r = d) rs))
    <$> distinct_days rs.

Definition mean (l : list Q) : Q := ratio (sumQ l) (count_of l).

Definition variance (l : list Q) : Q :=
  let m := mean l in
  ratio (sumQ ((λ x, (x - m) * (x - m)) <$> l)) (count_of l).

Definition coefficient_of_variation (l : list Q) : Q :=
  ratio (sqrt (variance l)) (mean l).

Definition features_of (date_from date_to : option Z)
    (qs : list AttendanceRecord) : FeatureVector :=
  let done := completed qs in
  let expected := expected_days date_from date_to qs in
  let present := distinct_days qs in
  let worked := sumQ ((λ r, hours (worked_minutes r)) <$> done) in
  let overtime := sumQ ((λ r, hours (overtime_minutes r)) <$> done) in
  {| total_work_hours := worked;
     attendance_rate :=
       ratio (count_of (filter (λ d, has_record qs d = true) expected))
             (count_of expected) * 100;
     punctuality_score :=
       ratio (count_of (filter (λ d, on_time qs d = true) present))
             (count_of present) * 100;
     consistency_score :=
       clamp 0 100 (100 * (1 - coefficient_of_variation (daily_hours done)));
     productivity_score := clamp 0 100 (productivity_heuristic qs);
     overtime_ratio := clamp 0 1 (ratio overtime worked);
     average_daily_hours := ratio worked (count_of present) |}.

(** Modelled from the spec: the Feature Extractor of section 4.1, which
    signals [InsufficientData] when no approved record lies in the
    range. *)
Definition extract (date_from date_to : option Z)
    (records : list AttendanceRecord) : Result FeatureVector :=
  match filter (λ r, qualifying date_from date_to r = true) records with
  | [] => Err InsufficientData
  | qs => Ok (features_of date_from date_to qs)
  end.
End extractor.

End Core.

(** * Vocabulary of the statements *)

Local Open Scope list_scope.

(** The request a call puts on the wire. *)
Definition issued {A} (call : list Api.Request → Api.Reply A * list Api.Request)
    (wire : list Api.Request) (req : Api.Request) : Prop :=
  (call wire).2 = wire ++ [req].

(** A query parameter is present exactly when its argument is a non-empty
    string, and then carries that string. *)
Definition carries (k : string) (arg : option string) (req : Api.Request)
  : Prop :=
  ∀ v, Api.params req !! k = Some v
       ↔ ∃ s, arg = Some s ∧ s ≠ "" ∧ v = JS.VString s.

(** A property name that resolves on [Object.prototype]. *)
Definition inherited_name (k : string) : Prop :=
  JS.object_prototype_get k ≠ JS.VUndefined.

(** The four labels of the clustering core, worst to best. *)
Definition cluster_labels : list string :=
  ["Needs Improvement"; "Average Performer"; "Good Performer";
   "High Performer"].

Definition gray_badge : JS.Value := JS.VString "bg-gray-100 text-gray-800".

(** Arrays that exist in [h] hold the same elements in [h']. *)
Definition untouched {A} (h h' : gmap JS.ref (list A)) : Prop :=
  ∀ p, is_Some (h !! p) → h' !! p = h !! p.

(** [a] may stand before [b] in a ranking by score, best first. *)
Definition outranks (a b : Api.ClusteringResult) : Prop :=
  (Api.performance_score b <= Api.performance_score a)%Q.

(** How many rows bear a label. *)
Definition occurrences (l : string) (rows : list Api.ClusteringResult) : nat :=
  length (filter (λ r, Api.cluster_label r = l) rows).

(** The number a count stands for, when it is one. *)
Definition counted (v : JS.Value) : nat :=
  match v with
  | JS.VNumber n => Z.to_nat n
  | _ => 0%nat
  end.

(** [count / total_users * 100] for a numeric count. *)
Definition share (n : nat) (total : Q) : JS.Number :=
  JS.mul (JS.div (JS.Finite (inject_Z (Z.of_nat n))) (JS.Finite total))
         (JS.Finite 100).

(** The four scores lie between 0 and 100. *)
Definition scores_within (fv : Core.FeatureVector) : Prop :=
  (0 <= Core.attendance_rate fv <= 100
   ∧ 0 <= Core.punctuality_score fv <= 100
   ∧ 0 <= Core.consistency_score fv <= 100
   ∧ 0 <= Core.productivity_score fv <= 100)%Q.

(** ** Sample data *)

Definition sample_row (l : string) (score : Q) : Api.ClusteringResult :=
  {| Api.user_id := "u1"; Api.worker_id := "W-001"; Api.name := "Sari";
     Api.cluster := 0; Api.cluster_label := l;
     Api.performance_score := score; Api.features := ∅ |}.

Definition sample_response (total : Q) : Api.ClusteringResponse :=
  {| Api.results := 0%nat; Api.cluster_centers := ∅;
     Api.feature_names := [];
     Api.analysis_period :=
       {| Api.date_from := "2024-03-01"; Api.date_to := "2024-03-31" |};
     Api.total_users := total; Api.model_accuracy := 1 |}.

Definition sample_store (total : Q) : AnalyticsStore.State :=
  AnalyticsStore.set_clusteringResults (Some (sample_response total))
    AnalyticsStore.initial.

Definition sample_heap (rows : list Api.ClusteringResult)
  : gmap JS.ref (list Api.ClusteringResult) :=
  {[ 0%nat := rows ]}.

(** A backend that cannot be reached. *)
Definition unreachable : Api.Backend :=
  {| Api.overview_route := λ _, Api.Rejected "Network Error";
     Api.team_route := λ _, Api.Rejected "Network Error";
     Api.ranking_route := λ _, Api.Rejected "Network Error";
     Api.trends_route := λ _, Api.Rejected "Network Error";
     Api.clustering_route := λ _, Api.Rejected "Network Error" |}.

Definition sample_rows : list Api.ClusteringResult :=
  [sample_row "Average Performer" 61; sample_row "High Performer" 93;
   sample_row "Needs Improvement" 40; sample_row "High Performer" 88;
   sample_row "Average Performer" 70; sample_row "Good Performer" 79;
   sample_row "Needs Improvement" 35].

(** Monday to Friday; day 0 is a Thursday. *)
Definition weekdays (d : Z) : bool := ((d + 3) mod 7 <? 5)%Z.

(** A stand-in for the square root that is exact at 0 and 1. *)
Definition sample_sqrt (q : Q) : Q := q.

Definition sample_heuristic (rs : list Core.AttendanceRecord) : Q := 75.

(** An eight-hour day, clocked in at 08:50 and out at 17:00. *)
Definition full_day (who : string) (d : Z) : Core.AttendanceRecord :=
  {| Core.employee := who; Core.day := d;
     Core.clock_in := Some 530%Z; Core.clock_out := Some 1020%Z;
     Core.worked_minutes := 480; Core.overtime_minutes := 0;
     Core.work_description := "site inspection"; Core.approved := true |}.

(** March 2024 is days 19783 to 19813 and has 21 weekdays; 20 of them are
    worked. *)
Definition march_records (who : string) : list Core.AttendanceRecord :=
  full_day who <$> take 20 (filter (λ d, weekdays d = true) (seqZ 19783 31)).

(** ** Vocabulary for the rest of the code *)

#[global] Instance fetch_eq_dec : EqDecision AnalyticsStore.Fetch.
Proof. solve_decision. Defined.

(** The replies of the five routes to the requests of [fetchAllData]. *)
Definition overview_reply (server : Api.Backend) (from to : option string)
  : Api.Reply Api.AnalyticsOverview :=
  (Api.getAnalyticsOverview server from to []).1.

Definition team_reply (server : Api.Backend) (from to : option string)
  : Api.Reply (list Api.TeamPerformance) :=
  (Api.getTeamPerformance server from to []).1.

Definition clustering_reply (server : Api.Backend) (from to : option string)
  : Api.Reply Api.ClusteringResponse :=
  (Api.getQuickClusteringAnalysis server from to (Some 3%Z) []).1.

Definition trends_reply (server : Api.Backend) (from to : option string)
  : Api.Reply Api.DailyTrendsResponse :=
  (Api.getDailyTrends server from to []).1.

Definition ranking_reply (server : Api.Backend) (from to : option string)
  : Api.Reply (list Api.RankedPerformance) :=
  (Api.getProductivityRanking server from to (Some 10%Z) []).1.

Definition is_rejected {A} (reply : Api.Reply A) : bool :=
  match reply with
  | Api.Resolved _ => false
  | Api.Rejected _ => true
  end.

(** The message that the [catch] of an action stores. *)
Definition failure_message (a : AnalyticsStore.Fetch) : string :=
  match a with
  | AnalyticsStore.Overview => "Failed to fetch analytics overview"
  | AnalyticsStore.Team => "Failed to fetch team performance"
  | AnalyticsStore.Clustering => "Failed to fetch clustering analysis"
  | AnalyticsStore.Trends => "Failed to fetch daily trends"
  | AnalyticsStore.Ranking => "Failed to fetch productivity ranking"
  end.

(** What a ref holds after its action: the new data, or what it held. *)
Definition stored {A} (reply : Api.Reply A) (old : A) : A :=
  match reply with
  | Api.Resolved data => data
  | Api.Rejected _ => old
  end.

Definition stored_option {A} (reply : Api.Reply A) (old : option A)
  : option A :=
  match reply with
  | Api.Resolved data => Some data
  | Api.Rejected _ => old
  end.

(** The continuations of [fetchAllData] for five given replies. *)
Definition pending
    (r1 : Api.Reply Api.AnalyticsOverview)
    (r2 : Api.Reply (list Api.TeamPerformance))
    (r3 : Api.Reply Api.ClusteringResponse)
    (r4 : Api.Reply Api.DailyTrendsResponse)
    (r5 : Api.Reply (list Api.RankedPerformance))
    (a : AnalyticsStore.Fetch) : AnalyticsStore.Pending :=
  match a with
  | AnalyticsStore.Overview => AnalyticsStore.PendingOverview r1
  | AnalyticsStore.Team => AnalyticsStore.PendingTeam r2
  | AnalyticsStore.Clustering => AnalyticsStore.PendingClustering r3
  | AnalyticsStore.Trends => AnalyticsStore.PendingTrends r4
  | AnalyticsStore.Ranking => AnalyticsStore.PendingRanking r5
  end.

(** The store after the continuations have run in the order [arrival]. *)
Definition settle_all
    (r1 : Api.Reply Api.AnalyticsOverview)
    (r2 : Api.Reply (list Api.TeamPerformance))
    (r3 : Api.Reply Api.ClusteringResponse)
    (r4 : Api.Reply Api.DailyTrendsResponse)
    (r5 : Api.Reply (list Api.RankedPerformance))
    (s : AnalyticsStore.State) (arrival : list AnalyticsStore.Fetch)
  : AnalyticsStore.State :=
  foldl (λ s a, AnalyticsStore.resume (pending r1 r2 r3 r4 r5 a) s) s arrival.

Definition fails_with
    (r1 : Api.Reply Api.AnalyticsOverview)
    (r2 : Api.Reply (list Api.TeamPerformance))
    (r3 : Api.Reply Api.ClusteringResponse)
    (r4 : Api.Reply Api.DailyTrendsResponse)
    (r5 : Api.Reply (list Api.RankedPerformance))
    (a : AnalyticsStore.Fetch) : bool :=
  match a with
  | AnalyticsStore.Overview => is_rejected r1
  | AnalyticsStore.Team => is_rejected r2
  | AnalyticsStore.Clustering => is_rejected r3
  | AnalyticsStore.Trends => is_rejected r4
  | AnalyticsStore.Ranking => is_rejected r5
  end.

(** Whether the call that [fetchAllData] makes for an action is rejected. *)
Definition fails (server : Api.Backend) (from to : option string)
    (a : AnalyticsStore.Fetch) : bool :=
  fails_with (overview_reply server from to) (team_reply server from to)
    (clustering_reply server from to) (trends_reply server from to)
    (ranking_reply server from to) a.

(** The five requests of [fetchAllData], in the order in which they are
    made. *)
Definition load_requests (from to : option string) : list Api.Request :=
  [ {| Api.url := "/api/v1/analytics/overview";
       Api.params := Api.date_params from to ∅ |};
    {| Api.url := "/api/v1/analytics/team/performance";
       Api.params := Api.date_params from to ∅ |};
    {| Api.url := "/api/v1/ml/clustering/quick-analysis";
       Api.params :=
         Api.date_params from to {["n_clusters" := JS.VNumber 3]} |};
    {| Api.url := "/api/v1/analytics/trends/daily";
       Api.params := Api.date_params from to ∅ |};
    {| Api.url := "/api/v1/analytics/productivity/ranking";
       Api.params := Api.date_params from to {["limit" := JS.VNumber 10]} |} ].

(** A request without date bounds. *)
Definition unbounded (req : Api.Request) : Prop :=
  Api.params req !! "date_from" = None ∧ Api.params req !! "date_to" = None.

(** A numeric query parameter is present exactly when its argument is a
    non-zero number, and then carries that number. *)
Definition carries_number (k : string) (arg : option Z) (req : Api.Request)
  : Prop :=
  ∀ v, Api.params req !! k = Some v
       ↔ ∃ n, arg = Some n ∧ n ≠ 0%Z ∧ v = JS.VNumber n.

(** [a] may stand before [b] in the table sorted by a key, greatest
    first. *)
Definition ranks_before (key : Api.ClusteringResult → Q)
    (a b : Api.ClusteringResult) : Prop :=
  (key b <= key a)%Q.

(** The rows whose key is the number [q], in their order. *)
Definition with_key (key : Api.ClusteringResult → Q) (q : Q)
    (rows : list Api.ClusteringResult) : list Api.ClusteringResult :=
  filter (λ r, Qeq_bool (key r) q = true) rows.

(** A word of a name: ASCII characters other than the space. *)
Definition is_word (w : string) : Prop :=
  Forall (λ c, c ≠ " "%char ∧ (Ascii.nat_of_ascii c < 128)%nat)
    (String.list_ascii_of_string w).

(** The number by which the table ranks a row under a sort key. *)
Definition sort_key (sortBy : string) (r : Api.ClusteringResult) : Q :=
  if String.eqb sortBy "performance_score" then Api.performance_score r
  else default 0%Q (Api.features r !! sortBy).

(** ** Sample data for the rest of the code *)

Definition sample_overview : Api.AnalyticsOverview :=
  {| Api.total_workers := 12; Api.active_workers := 9;
     Api.total_attendance_records := 240;
     Api.overview_average_daily_hours := 8;
     Api.overview_total_work_hours := 1920;
     Api.date_range :=
       {| Api.from := Some "2024-03-01"; Api.to := None |} |}.

Definition sample_trends : Api.DailyTrendsResponse :=
  {| Api.daily_trends := [];
     Api.summary :=
       {| Api.total_days := 0; Api.average_daily_workers := 0;
          Api.summary_average_daily_hours := 0 |} |}.

(** A backend whose team and clustering routes fail. *)
Definition flaky : Api.Backend :=
  {| Api.overview_route := λ _, Api.Resolved sample_overview;
     Api.team_route := λ _, Api.Rejected "timeout of 30000ms exceeded";
     Api.ranking_route := λ _, Api.Resolved [];
     Api.trends_route := λ _, Api.Resolved sample_trends;
     Api.clustering_route := λ _, Api.Rejected "Network Error" |}.

(** An order in which the five replies may come in. *)
Definition sample_arrival : list AnalyticsStore.Fetch :=
  [AnalyticsStore.Clustering; AnalyticsStore.Overview; AnalyticsStore.Ranking;
   AnalyticsStore.Team; AnalyticsStore.Trends].

Definition sample_picker : DateRangePicker.Picker :=
  {| DateRangePicker.localDateFrom := ""; DateRangePicker.localDateTo := "" |}.

Definition sample_words : list string := ["siti"; ""; "nur"; "haliza"].

(** * Properties *)

(** ** Requests built by [apiService] *)

Section requests.
Import Api.

Lemma set_if_given_other k k' arg ps :
  k ≠ k' → set_if_given k arg ps !! k' = ps !! k'.
Proof.
  intros Hne. unfold set_if_given.
  destruct arg as [s|]; [|done].
  destruct (String.eqb s ""); [done|]. by rewrite lookup_insert_ne.
Qed.

Lemma set_if_given_same k arg ps v :
  ps !! k = None →
  set_if_given k arg ps !! k = Some v
  ↔ ∃ s, arg = Some s ∧ s ≠ "" ∧ v = JS.VString s.
Proof.
  intros Hnone. unfold set_if_given.
  destruct arg as [s|].
  - destruct (String.eqb_spec s "") as [->|Hs].
    + rewrite Hnone. split; [done|]. intros (s & Hs & Hne & _).
      by injection Hs as <-.
    + rewrite lookup_insert_eq. split.
      * intros [= <-]. eauto.
      * intros (s' & [= <-] & _ & ->). done.
  - rewrite Hnone. split; [done|]. by intros (s & Hs & _).
Qed.

Lemma date_params_carry dateFrom dateTo ps u :
  ps !! "date_from" = None → ps !! "date_to" = None →
  carries "date_from" dateFrom
    {| url := u; params := date_params dateFrom dateTo ps |}
  ∧ carries "date_to" dateTo
    {| url := u; params := date_params dateFrom dateTo ps |}.
Proof.
  intros Hf Ht. unfold carries, date_params. cbn [params]. split; intros v.
  - rewrite set_if_given_other by done. by apply set_if_given_same.
  - apply set_if_given_same. by rewrite set_if_given_other.
Qed.

Lemma date_params_keep dateFrom dateTo ps k :
  k ≠ "date_from" → k ≠ "date_to" →
  date_params dateFrom dateTo ps !! k = ps !! k.
Proof.
  intros Hf Ht. unfold date_params.
  by rewrite !set_if_given_other.
Qed.
End requests.

(** C1. When the caller passes no cluster count, both
    [apiService.getQuickClusteringAnalysis] and the store action
    [fetchClusteringAnalysis] issue the same request to the quick-analysis
    route, and its [n_clusters] parameter is 3. *)
Theorem default_cluster_count_is_three
    (server : Api.Backend) (from to : option string)
    (s : AnalyticsStore.State) (wire : list Api.Request) :
  ∃ req,
    issued (Api.getQuickClusteringAnalysis server from to None) wire req
    ∧ (AnalyticsStore.fetchClusteringAnalysis server from to None s wire).2
      = wire ++ [req]
    ∧ Api.url req = "/api/v1/ml/clustering/quick-analysis"
    ∧ Api.params req !! "n_clusters" = Some (JS.VNumber 3).
Proof.
  eexists. unfold issued. split; [reflexivity|]. split.
  - unfold AnalyticsStore.fetchClusteringAnalysis,
      Api.getQuickClusteringAnalysis, Api.get. reflexivity.
  - split; [reflexivity|]. cbn [Api.params default].
    rewrite date_params_keep by done. apply lookup_singleton_eq.
Qed.

(** C2. Each of the five analytics and clustering fetch functions sends
    [date_from] exactly when [dateFrom] is a non-empty string (with that
    string as its value), and [date_to] likewise for [dateTo]; an absent or
    empty bound leaves the parameter out. *)
Theorem date_bounds_sent_iff_given
    (server : Api.Backend) (dateFrom dateTo : option string)
    (limit nClusters : option Z) (wire : list Api.Request) :
  (∃ req, issued (Api.getAnalyticsOverview server dateFrom dateTo) wire req
          ∧ carries "date_from" dateFrom req ∧ carries "date_to" dateTo req)
  ∧ (∃ req, issued (Api.getTeamPerformance server dateFrom dateTo) wire req
          ∧ carries "date_from" dateFrom req ∧ carries "date_to" dateTo req)
  ∧ (∃ req,
       issued (Api.getProductivityRanking server dateFrom dateTo limit) wire req
       ∧ carries "date_from" dateFrom req ∧ carries "date_to" dateTo req)
  ∧ (∃ req, issued (Api.getDailyTrends server dateFrom dateTo) wire req
          ∧ carries "date_from" dateFrom req ∧ carries "date_to" dateTo req)
  ∧ (∃ req,
       issued (Api.getQuickClusteringAnalysis server dateFrom dateTo nClusters)
         wire req
       ∧ carries "date_from" dateFrom req ∧ carries "date_to" dateTo req).
Proof.
  repeat split; eexists;
    (split; [reflexivity | apply date_params_carry; done]).
Qed.

(** ** Store actions *)

(** C8. After any of the five fetch actions [loading] is false, and when the
    awaited call is rejected the data the action would have replaced is what
    it was before and [error] holds the action's message. *)
Theorem fetch_failure_keeps_data_and_clears_loading
    (server : Api.Backend) (from to : option string)
    (clusters limit : option Z)
    (s : AnalyticsStore.State) (wire : list Api.Request) :
  let after_overview := (AnalyticsStore.fetchOverview server from to s wire).1 in
  let after_team :=
    (AnalyticsStore.fetchTeamPerformance server from to s wire).1 in
  let after_clustering :=
    (AnalyticsStore.fetchClusteringAnalysis server from to clusters s wire).1 in
  let after_trends :=
    (AnalyticsStore.fetchDailyTrends server from to s wire).1 in
  let after_ranking :=
    (AnalyticsStore.fetchProductivityRanking server from to limit s wire).1 in
  (AnalyticsStore.loading after_overview = false
   ∧ AnalyticsStore.loading after_team = false
   ∧ AnalyticsStore.loading after_clustering = false
   ∧ AnalyticsStore.loading after_trends = false
   ∧ AnalyticsStore.loading after_ranking = false)
  ∧ (∀ reason,
       (Api.getAnalyticsOverview server from to wire).1 = Api.Rejected reason →
       AnalyticsStore.overview after_overview = AnalyticsStore.overview s
       ∧ AnalyticsStore.error after_overview
         = Some "Failed to fetch analytics overview")
  ∧ (∀ reason,
       (Api.getTeamPerformance server from to wire).1 = Api.Rejected reason →
       AnalyticsStore.teamPerformance after_team
       = AnalyticsStore.teamPerformance s
       ∧ AnalyticsStore.error after_team
         = Some "Failed to fetch team performance")
  ∧ (∀ reason,
       (Api.getQuickClusteringAnalysis server from to
          (Some (default 3%Z clusters)) wire).1 = Api.Rejected reason →
       AnalyticsStore.clusteringResults after_clustering
       = AnalyticsStore.clusteringResults s
       ∧ AnalyticsStore.error after_clustering
         = Some "Failed to fetch clustering analysis")
  ∧ (∀ reason,
       (Api.getDailyTrends server from to wire).1 = Api.Rejected reason →
       AnalyticsStore.dailyTrends after_trends = AnalyticsStore.dailyTrends s
       ∧ AnalyticsStore.error after_trends
         = Some "Failed to fetch daily trends")
  ∧ (∀ reason,
       (Api.getProductivityRanking server from to
          (Some (default 10%Z limit)) wire).1 = Api.Rejected reason →
       AnalyticsStore.productivityRanking after_ranking
       = AnalyticsStore.productivityRanking s
       ∧ AnalyticsStore.error after_ranking
         = Some "Failed to fetch productivity ranking").
Proof.
  cbv zeta. split.
  - unfold AnalyticsStore.fetchOverview, AnalyticsStore.fetchTeamPerformance,
      AnalyticsStore.fetchClusteringAnalysis, AnalyticsStore.fetchDailyTrends,
      AnalyticsStore.fetchProductivityRanking,
      Api.getAnalyticsOverview, Api.getTeamPerformance,
      Api.getQuickClusteringAnalysis, Api.getDailyTrends,
      Api.getProductivityRanking, Api.get.
    cbn [fst snd].
    repeat split;
      match goal with
      | |- context [match ?r with Api.Resolved _ => _ | Api.Rejected _ => _ end] =>
          destruct r; reflexivity
      end.
  - unfold AnalyticsStore.fetchOverview, AnalyticsStore.fetchTeamPerformance,
      AnalyticsStore.fetchClusteringAnalysis, AnalyticsStore.fetchDailyTrends,
      AnalyticsStore.fetchProductivityRanking,
      Api.getAnalyticsOverview, Api.getTeamPerformance,
      Api.getQuickClusteringAnalysis, Api.getDailyTrends,
      Api.getProductivityRanking, Api.get.
    cbn [fst snd].
    repeat match goal with |- _ ∧ _ => split end;
      intros reason Hrej; rewrite Hrej; split; reflexivity.
Qed.

(** Each action is its two steps around the awaited call. *)
Lemma fetch_actions_in_two_steps
    (server : Api.Backend) (from to : option string)
    (clusters limit : option Z)
    (s : AnalyticsStore.State) (wire : list Api.Request) :
  (AnalyticsStore.fetchOverview server from to s wire).1
  = AnalyticsStore.settle (λ d, AnalyticsStore.set_overview (Some d))
      "Failed to fetch analytics overview"
      (Api.getAnalyticsOverview server from to wire).1
      (AnalyticsStore.enter s)
  ∧ (AnalyticsStore.fetchTeamPerformance server from to s wire).1
    = AnalyticsStore.settle AnalyticsStore.set_teamPerformance
        "Failed to fetch team performance"
        (Api.getTeamPerformance server from to wire).1
        (AnalyticsStore.enter s)
  ∧ (AnalyticsStore.fetchClusteringAnalysis server from to clusters s wire).1
    = AnalyticsStore.settle
        (λ d, AnalyticsStore.set_clusteringResults (Some d))
        "Failed to fetch clustering analysis"
        (Api.getQuickClusteringAnalysis server from to
           (Some (default 3%Z clusters)) wire).1
        (AnalyticsStore.enter s)
  ∧ (AnalyticsStore.fetchDailyTrends server from to s wire).1
    = AnalyticsStore.settle (λ d, AnalyticsStore.set_dailyTrends (Some d))
        "Failed to fetch daily trends"
        (Api.getDailyTrends server from to wire).1
        (AnalyticsStore.enter s)
  ∧ (AnalyticsStore.fetchProductivityRanking server from to limit s wire).1
    = AnalyticsStore.settle AnalyticsStore.set_productivityRanking
        "Failed to fetch productivity ranking"
        (Api.getProductivityRanking server from to
           (Some (default 10%Z limit)) wire).1
        (AnalyticsStore.enter s).
Proof. repeat split. Qed.

(** Whatever the store holds when a call is rejected, settling keeps all
    data, sets the message and clears [loading]; settling a resolved call
    clears [loading] as well. *)
Lemma settle_rejected {A} (store : A → AnalyticsStore.State → AnalyticsStore.State)
    (message reason : string) (s : AnalyticsStore.State) :
  let s' := AnalyticsStore.settle store message (Api.Rejected reason) s in
  AnalyticsStore.loading s' = false
  ∧ AnalyticsStore.error s' = Some message
  ∧ AnalyticsStore.overview s' = AnalyticsStore.overview s
  ∧ AnalyticsStore.teamPerformance s' = AnalyticsStore.teamPerformance s
  ∧ AnalyticsStore.clusteringResults s' = AnalyticsStore.clusteringResults s
  ∧ AnalyticsStore.dailyTrends s' = AnalyticsStore.dailyTrends s
  ∧ AnalyticsStore.productivityRanking s'
    = AnalyticsStore.productivityRanking s.
Proof. repeat split. Qed.

Lemma settle_clears_loading {A}
    (store : A → AnalyticsStore.State → AnalyticsStore.State)
    (message : string) (reply : Api.Reply A) (s : AnalyticsStore.State) :
  AnalyticsStore.loading (AnalyticsStore.settle store message reply s) = false.
Proof. reflexivity. Qed.

(** ** Badge classes *)

Lemma classes_lookup_other (l : string) :
  l ∉ cluster_labels → PerformanceTable.classes !! l = None.
Proof.
  intros Hl. unfold PerformanceTable.classes, cluster_labels in *.
  rewrite !lookup_insert_ne; [apply lookup_empty | ..];
    intros <-; apply Hl; set_solver.
Qed.

(** The four labels get four different classes, none of them the gray one. *)
Lemma badge_class_of_labels :
  PerformanceTable.getClusterBadgeClass <$> cluster_labels
  = [JS.VString "bg-red-100 text-red-800";
     JS.VString "bg-yellow-100 text-yellow-800";
     JS.VString "bg-blue-100 text-blue-800";
     JS.VString "bg-green-100 text-green-800"].
Proof. reflexivity. Qed.

(** A string that is neither one of the four labels nor a property name of
    [Object.prototype] gets the gray class. *)
Lemma badge_class_fallback (l : string) :
  l ∉ cluster_labels → ¬ inherited_name l →
  PerformanceTable.getClusterBadgeClass l = gray_badge.
Proof.
  intros Hl Hplain.
  unfold PerformanceTable.getClusterBadgeClass, JS.get.
  rewrite classes_lookup_other by done.
  destruct (JS.object_prototype_get l) eqn:Hget; try reflexivity;
    exfalso; apply Hplain; unfold inherited_name; by rewrite Hget.
Qed.

(** C5. The label ["constructor"] is none of the four labels, yet
    [getClusterBadgeClass] does not answer with the gray class: the lookup
    in the object literal finds the inherited [constructor] function, which
    is truthy, so the [||] fallback is not taken.  (The same holds for every
    property name of [Object.prototype].) *)
Theorem badge_class_of_constructor_is_not_gray :
  ("constructor" ∉ cluster_labels)
  ∧ PerformanceTable.getClusterBadgeClass "constructor" = JS.VBuiltin "Object"
  ∧ PerformanceTable.getClusterBadgeClass "constructor" ≠ gray_badge.
Proof.
  split; [|split].
  - unfold cluster_labels. intros Hmem.
    repeat (apply elem_of_cons in Hmem as [Heq | Hmem]; [discriminate Heq|]).
    by apply elem_of_nil in Hmem.
  - reflexivity.
  - discriminate.
Qed.

Lemma badge_class_of_inherited_name (l : string) :
  inherited_name l →
  PerformanceTable.getClusterBadgeClass l = JS.object_prototype_get l.
Proof.
  intros Hin.
  assert (l ∉ cluster_labels) as Hl.
  { intros Hmem. apply Hin. unfold cluster_labels in Hmem.
    repeat (apply elem_of_cons in Hmem as [-> | Hmem]; [reflexivity|]).
    by apply elem_of_nil in Hmem. }
  unfold PerformanceTable.getClusterBadgeClass, JS.get.
  rewrite classes_lookup_other by done.
  unfold inherited_name, JS.object_prototype_get in *.
  repeat (destruct (String.eqb l _); [reflexivity|]). done.
Qed.

(** ** Date range shortcuts *)

(** C7. On a host seven hours east of UTC, at local noon of 15 March 2024,
    "This Month" emits 29 February and 30 March, and "Last Month" emits
    31 January and 28 February: each bound is one day early, because
    [toISOString] prints the UTC date of local midnight. *)
Theorem month_shortcuts_east_of_utc (c : DateRangePicker.Picker) :
  let tz := 420%Z in
  let now := 1710478800000%Z in
  DateRangePicker.local_date tz now = (2024, 3, 15)%Z
  ∧ (DateRangePicker.setCurrentMonth tz now c).2
    = [DateRangePicker.UpdateDateFrom "2024-02-29";
       DateRangePicker.UpdateDateTo "2024-03-30"]
  ∧ DateRangePicker.month_bounds 2024 3 = ("2024-03-01", "2024-03-31")
  ∧ (DateRangePicker.setLastMonth tz now c).2
    = [DateRangePicker.UpdateDateFrom "2024-01-31";
       DateRangePicker.UpdateDateTo "2024-02-28"]
  ∧ DateRangePicker.month_bounds 2024 2 = ("2024-02-01", "2024-02-29").
Proof. cbv zeta. repeat split; vm_compute; reflexivity. Qed.

(** On a host in UTC the same instant gives the bounds of the month. *)
Example month_shortcuts_in_utc (c : DateRangePicker.Picker) :
  (DateRangePicker.setCurrentMonth 0 1710478800000 c).2
  = [DateRangePicker.UpdateDateFrom "2024-03-01";
     DateRangePicker.UpdateDateTo "2024-03-31"]
  ∧ (DateRangePicker.setLastMonth 0 1710478800000 c).2
    = [DateRangePicker.UpdateDateFrom "2024-02-01";
       DateRangePicker.UpdateDateTo "2024-02-29"].
Proof. split; vm_compute; reflexivity. Qed.

(** ** Arrays: copies and the in-place sort *)

Section array_facts.
Context {A : Type}.
Implicit Types (h : gmap JS.ref (list A)) (l : list A).
Implicit Types cmp : A → A → JS.Number.

Lemma alloc_fresh l h : h !! (JS.alloc l h).1 = None.
Proof. cbn. apply not_elem_of_dom, is_fresh. Qed.

Lemma alloc_lookup l h : (JS.alloc l h).2 !! (JS.alloc l h).1 = Some l.
Proof. cbn. apply lookup_insert_eq. Qed.

Lemma alloc_untouched l h : untouched h (JS.alloc l h).2.
Proof.
  intros p [x Hp]. cbn. apply lookup_insert_ne.
  intros <-. pose proof (alloc_fresh l h) as Hnone. cbn in Hnone.
  congruence.
Qed.

Lemma untouched_trans h1 h2 h3 :
  untouched h1 h2 → untouched h2 h3 → untouched h1 h3.
Proof.
  intros H12 H23 p Hp. rewrite H23, H12; [done..|]. by rewrite H12.
Qed.

Lemma insert_sorted_perm cmp x l : x :: l ≡ₚ JS.insert_sorted cmp x l.
Proof.
  induction l as [|y l IH]; cbn; [done|].
  destruct (JS.is_positive (cmp x y)); [|done].
  rewrite <- IH. apply perm_swap.
Qed.

Lemma sorted_elems_perm cmp l : l ≡ₚ JS.sorted_elems cmp l.
Proof.
  induction l as [|x l IH]; cbn; [done|].
  rewrite <- insert_sorted_perm. by constructor.
Qed.

(** Sorting by a comparator that decides a total relation [R]: an element
    stays before the ones it does not compare greater than. *)
Lemma insert_sorted_Sorted (R : relation A) cmp x l :
  (∀ a b, JS.is_positive (cmp a b) = false → R a b) →
  (∀ a b, JS.is_positive (cmp a b) = true → R b a) →
  Sorted R l → Sorted R (JS.insert_sorted cmp x l).
Proof.
  intros Hle Hgt. induction 1 as [|y l Hl IH Hhd]; cbn.
  - by repeat constructor.
  - destruct (JS.is_positive (cmp x y)) eqn:Hxy.
    + constructor; [exact IH|].
      destruct Hhd as [|z l Hyz]; cbn.
      * constructor. by apply Hgt.
      * destruct (JS.is_positive (cmp x z)); constructor;
          [exact Hyz | by apply Hgt].
    + constructor; [by constructor|]. constructor. by apply Hle.
Qed.

Lemma sorted_elems_Sorted (R : relation A) cmp l :
  (∀ a b, JS.is_positive (cmp a b) = false → R a b) →
  (∀ a b, JS.is_positive (cmp a b) = true → R b a) →
  Sorted R (JS.sorted_elems cmp l).
Proof.
  intros Hle Hgt. induction l as [|x l IH]; cbn; [constructor|].
  by apply insert_sorted_Sorted.
Qed.

(** Copy, then sort the copy: the original stays, the result is a new
    array with the sorted elements. *)
Lemma spread_sort cmp p h l :
  h !! p = Some l →
  let copy := JS.spread p h in
  let out := JS.sort cmp copy.1 copy.2 in
  untouched h out.2
  ∧ h !! out.1 = None
  ∧ out.2 !! out.1 = Some (JS.sorted_elems cmp l).
Proof.
  intros Hp. cbv zeta. unfold JS.spread, JS.read, JS.sort. rewrite Hp.
  cbn [default fst snd]. split; [|split].
  - intros q Hq. rewrite lookup_alter_ne.
    + by apply alloc_untouched.
    + intros <-. destruct Hq as [x Hq].
      pose proof (alloc_fresh l h) as Hnone. cbn in Hq, Hnone. congruence.
  - apply alloc_fresh.
  - by rewrite lookup_alter_eq, alloc_lookup.
Qed.
End array_facts.

(** ** The performance table *)

(** C6. [sortedEmployees] yields a new array whose elements are a
    permutation of the rows of [props.employees]; the array behind
    [props.employees], like every other array, holds what it held before. *)
Theorem sorted_employees_permutes_a_copy
    (employees : JS.ref) (sortBy : string)
    (h : gmap JS.ref (list Api.ClusteringResult))
    (rows : list Api.ClusteringResult) :
  h !! employees = Some rows →
  let out := PerformanceTable.sortedEmployees employees sortBy h in
  out.1 ≠ employees
  ∧ out.2 !! employees = Some rows
  ∧ untouched h out.2
  ∧ ∃ sorted, out.2 !! out.1 = Some sorted ∧ rows ≡ₚ sorted.
Proof.
  intros Hrows. cbv zeta. unfold PerformanceTable.sortedEmployees.
  pose proof (spread_sort (PerformanceTable.comparator sortBy) _ _ _ Hrows)
    as (Hsame & Hnew & Hout).
  destruct (JS.spread employees h) as [copy h1]. cbn [fst snd] in *.
  split; [|split; [|split]].
  - intros Heq. rewrite Heq in Hnew. by rewrite Hnew in Hrows.
  - rewrite Hsame; [done | by eexists].
  - exact Hsame.
  - eexists. split; [exact Hout|]. apply sorted_elems_perm.
Qed.

(** ** Derived values of the store *)

Lemma by_score_descending_le (a b : Api.ClusteringResult) :
  JS.is_positive (AnalyticsStore.by_score_descending a b) = false →
  outranks a b.
Proof.
  unfold AnalyticsStore.by_score_descending, outranks. cbn.
  rewrite negb_false_iff, Qle_bool_iff. lra.
Qed.

Lemma by_score_descending_gt (a b : Api.ClusteringResult) :
  JS.is_positive (AnalyticsStore.by_score_descending a b) = true →
  outranks b a.
Proof.
  unfold AnalyticsStore.by_score_descending, outranks. cbn.
  rewrite negb_true_iff. intros Hneg.
  destruct (Qlt_le_dec (Api.performance_score b) (Api.performance_score a))
    as [Hlt | Hle]; [|exact Hle].
  assert (Api.performance_score b - Api.performance_score a <= 0)%Q as Hc
    by lra.
  apply Qle_bool_iff in Hc. congruence.
Qed.

#[local] Instance outranks_transitive : Transitive outranks.
Proof. intros a b c. unfold outranks. lra. Qed.

Lemma StronglySorted_take {A} (R : relation A) (n : nat) (l : list A) :
  StronglySorted R l → StronglySorted R (take n l).
Proof.
  intros Hl. rewrite <- (take_drop n l) in Hl.
  by apply StronglySorted_app_1_l in Hl.
Qed.

(** C9. With a clustering response in the store, [topPerformers] is a new
    array of [min 5 (length results)] rows taken from [results] (together
    with the rows left out they make up [results] again), best score first;
    the stored [results] array and every other array keep their elements. *)
Theorem top_performers_are_sorted_prefix_of_a_copy
    (s : AnalyticsStore.State) (h : gmap JS.ref (list Api.ClusteringResult))
    (response : Api.ClusteringResponse) (rows : list Api.ClusteringResult) :
  AnalyticsStore.clusteringResults s = Some response →
  h !! Api.results response = Some rows →
  let out := AnalyticsStore.topPerformers s h in
  out.2 !! Api.results response = Some rows
  ∧ untouched h out.2
  ∧ ∃ top rest,
      out.2 !! out.1 = Some top
      ∧ length top = min 5 (length rows)
      ∧ rows ≡ₚ top ++ rest
      ∧ StronglySorted outranks top.
Proof.
  intros Hstored Hrows. cbv zeta. unfold AnalyticsStore.topPerformers.
  rewrite Hstored.
  pose proof (spread_sort AnalyticsStore.by_score_descending _ _ _ Hrows)
    as (Hsame & Hnew & Hout).
  destruct (JS.spread (Api.results response) h) as [copy h1].
  cbn [fst snd] in Hsame, Hnew, Hout.
  destruct (JS.sort AnalyticsStore.by_score_descending copy h1)
    as [sorted h2] eqn:Hsort.
  cbn [fst snd] in Hsame, Hnew, Hout.
  assert (untouched h (JS.slice_to 5 sorted h2).2) as Hkeep.
  { eapply untouched_trans; [exact Hsame | apply alloc_untouched]. }
  split; [|split].
  - rewrite Hkeep; [done | by eexists].
  - exact Hkeep.
  - set (all := JS.sorted_elems AnalyticsStore.by_score_descending rows).
    exists (take 5 all), (drop 5 all).
    assert (rows ≡ₚ all) as Hperm by apply sorted_elems_perm.
    split; [|split; [|split]].
    + unfold JS.slice_to, JS.read. rewrite Hout. apply alloc_lookup.
    + rewrite length_take, <- (Permutation_length Hperm). lia.
    + by rewrite take_drop.
    + apply StronglySorted_take, Sorted_StronglySorted; [apply _|].
      apply sorted_elems_Sorted;
        [apply by_score_descending_le | apply by_score_descending_gt].
Qed.

(** The tally of rows whose labels do not resolve on [Object.prototype]:
    every label that occurs is an own property holding its number of
    occurrences, and there is no other property. *)
Lemma distribution_of_snoc rows r :
  AnalyticsStore.distribution_of (rows ++ [r])
  = AnalyticsStore.tally (AnalyticsStore.distribution_of rows) r.
Proof. unfold AnalyticsStore.distribution_of. by rewrite foldl_app. Qed.

Lemma occurrences_snoc l rows r :
  occurrences l (rows ++ [r])
  = (occurrences l rows
     + if decide (Api.cluster_label r = l) then 1 else 0)%nat.
Proof.
  unfold occurrences. rewrite filter_app, length_app. f_equal.
  rewrite filter_cons, filter_nil. by destruct (decide _).
Qed.

Lemma distribution_of_plain_labels (rows : list Api.ClusteringResult) :
  Forall (λ r, ¬ inherited_name (Api.cluster_label r)) rows →
  ∀ l, AnalyticsStore.distribution_of rows !! l
       = if decide (occurrences l rows = 0%nat) then None
         else Some (JS.VNumber (Z.of_nat (occurrences l rows))).
Proof.
  induction rows as [|r rows IH] using rev_ind; intros Hplain l.
  { cbn. apply lookup_empty. }
  apply Forall_app in Hplain as [Hrows Hr].
  rewrite Forall_singleton in Hr.
  specialize (IH Hrows).
  rewrite distribution_of_snoc, occurrences_snoc.
  unfold AnalyticsStore.tally, JS.set.
  destruct (String.eqb_spec (Api.cluster_label r) "__proto__") as [Heq|_].
  { exfalso. apply Hr. rewrite Heq. discriminate. }
  destruct (decide (Api.cluster_label r = l)) as [Hl|Hne].
  - rewrite Hl in *. rewrite lookup_insert_eq. unfold JS.get. rewrite IH.
    destruct (decide (occurrences l rows = 0%nat)) as [Hz|Hnz];
      cbv beta iota.
    + assert (JS.object_prototype_get l = JS.VUndefined) as Hget.
      { destruct (JS.object_prototype_get l) eqn:Hget; try reflexivity;
          exfalso; apply Hr; unfold inherited_name; by rewrite Hget. }
      rewrite Hget, Hz. reflexivity.
    + destruct (decide _) as [|_]; [lia|].
      replace (Z.of_nat (occurrences l rows + 1))
        with (Z.of_nat (occurrences l rows) + 1)%Z by lia.
      unfold JS.or, JS.truthy.
      destruct (Z.eqb_spec (Z.of_nat (occurrences l rows)) 0); [lia|].
      reflexivity.
  - rewrite lookup_insert_ne by done. rewrite IH, Nat.add_0_r. done.
Qed.

(** For such rows [clusterDistribution] has exactly one entry per label that
    occurs, with the number of occurrences as count and the count's share of
    [total_users] as percentage. *)
Lemma cluster_distribution_of_plain_labels
    (s : AnalyticsStore.State) (h : gmap JS.ref (list Api.ClusteringResult))
    (response : Api.ClusteringResponse) (rows : list Api.ClusteringResult) :
  AnalyticsStore.clusteringResults s = Some response →
  h !! Api.results response = Some rows →
  Forall (λ r, ¬ inherited_name (Api.cluster_label r)) rows →
  NoDup (AnalyticsStore.label <$> AnalyticsStore.clusterDistribution s h)
  ∧ ∀ e, e ∈ AnalyticsStore.clusterDistribution s h
         ↔ (0 < occurrences (AnalyticsStore.label e) rows)%nat
           ∧ AnalyticsStore.count e
             = JS.VNumber (Z.of_nat (occurrences (AnalyticsStore.label e) rows))
           ∧ AnalyticsStore.percentage e
             = share (occurrences (AnalyticsStore.label e) rows)
                 (Api.total_users response).
Proof.
  intros Hstored Hrows Hplain.
  unfold AnalyticsStore.clusterDistribution, JS.read.
  rewrite Hstored, Hrows. cbn [default].
  pose proof (distribution_of_plain_labels rows Hplain) as Hd.
  set (d := AnalyticsStore.distribution_of rows) in *.
  split.
  - rewrite <- list_fmap_compose.
    erewrite list_fmap_ext; [apply (NoDup_fst_map_to_list d)|].
    by intros i [l c] _.
  - intros e. rewrite list_elem_of_fmap. split.
    + intros ([l c] & -> & Hin). apply elem_of_map_to_list in Hin.
      cbn. rewrite Hd in Hin.
      destruct (decide _) as [|Hnz]; [done|]. injection Hin as <-.
      split; [lia|]. split; reflexivity.
    + intros (Hpos & Hcount & Hshare).
      exists (AnalyticsStore.label e, AnalyticsStore.count e). split.
      * destruct e as [l c q]. cbn in *. subst c q. reflexivity.
      * apply elem_of_map_to_list. rewrite Hd.
        destruct (decide _) as [|_]; [lia|]. by rewrite Hcount.
Qed.

(** C10. A row labelled ["constructor"] does not get the count 1: the tally
    starts from the inherited [constructor] function, so the count is a piece
    of text and the percentage is [NaN]; a row labelled ["__proto__"] gets no
    entry at all.  Both are lookups in a fresh object literal that resolve on
    [Object.prototype]. *)
Theorem cluster_distribution_of_inherited_labels :
  AnalyticsStore.clusterDistribution (sample_store 1)
    (sample_heap [sample_row "constructor" 80])
  = [{| AnalyticsStore.label := "constructor";
        AnalyticsStore.count :=
          JS.VString "function Object() { [native code] }1";
        AnalyticsStore.percentage := JS.NaN |}]
  ∧ AnalyticsStore.clusterDistribution (sample_store 1)
      (sample_heap [sample_row "__proto__" 80])
    = [].
Proof. split; vm_compute; reflexivity. Qed.

(** ** The analytics core *)

Section core_facts.
Import Core.
Local Open Scope Q_scope.

Lemma clamp_bounds (lo hi x : Q) :
  lo <= hi → lo <= clamp lo hi x <= hi.
Proof.
  intros Hlo. unfold clamp.
  destruct (Qle_bool x lo) eqn:Hx; [lra|].
  destruct (Qle_bool hi x) eqn:Hy; [lra|].
  split.
  - destruct (Qlt_le_dec x lo) as [Hlt|Hle]; [|exact Hle].
    assert (x <= lo) as Hc by lra. apply Qle_bool_iff in Hc. congruence.
  - destruct (Qlt_le_dec hi x) as [Hlt|Hle]; [|exact Hle].
    assert (hi <= x) as Hc by lra. apply Qle_bool_iff in Hc. congruence.
Qed.

Lemma ratio_of_part (a b : Q) :
  0 <= a <= b → 0 <= ratio a b * 100 <= 100.
Proof.
  intros [Ha Hab]. unfold ratio.
  destruct (Qeq_bool b 0) eqn:Hb; [lra|].
  apply Qeq_bool_neq in Hb.
  assert (0 < b) as Hpos.
  { destruct (Qlt_le_dec 0 b) as [Hlt|Hle]; [exact Hlt|].
    exfalso. apply Hb. lra. }
  assert (0 <= a / b) as Hq0.
  { apply Qle_shift_div_l; [exact Hpos | lra]. }
  assert (a / b <= 1) as Hq1.
  { apply Qle_shift_div_r; [exact Hpos | lra]. }
  lra.
Qed.

Lemma count_of_filter {A} (P : A → Prop) `{∀ x, Decision (P x)}
    (l : list A) :
  0 <= count_of (filter P l) <= count_of l.
Proof.
  unfold count_of. pose proof (length_filter P l) as Hlen.
  split.
  - replace 0 with (inject_Z 0) by reflexivity.
    rewrite <- Zle_Qle. lia.
  - rewrite <- Zle_Qle. lia.
Qed.

Lemma features_of_within working_day threshold sqrt heuristic
    date_from date_to qs :
  scores_within
    (features_of working_day threshold sqrt heuristic date_from date_to qs).
Proof.
  unfold scores_within, features_of. cbn.
  repeat split;
    try (apply ratio_of_part, count_of_filter);
    try (apply clamp_bounds; lra).
Qed.
End core_facts.

(** C4. Whatever the calendar, the punctuality threshold, the square-root
    routine and the productivity heuristic, and whatever the window and the
    records: a feature vector that the extractor produces has
    [attendance_rate], [punctuality_score], [consistency_score] and
    [productivity_score] between 0 and 100. *)
Theorem extracted_scores_within_bounds
    (working_day : Z → bool) (punctuality_threshold : Z) (sqrt : Q → Q)
    (productivity_heuristic : list Core.AttendanceRecord → Q)
    (date_from date_to : option Z) (records : list Core.AttendanceRecord)
    (fv : Core.FeatureVector) :
  Core.extract working_day punctuality_threshold sqrt productivity_heuristic
    date_from date_to records = Core.Ok fv →
  scores_within fv.
Proof.
  unfold Core.extract.
  destruct (filter _ records) as [|q qs]; [discriminate|].
  intros [= <-]. apply features_of_within.
Qed.

(** ** The statements at sample inputs *)

Lemma sorted_employees_permutes_a_copy_witness :
  sample_heap sample_rows !! 0%nat = Some sample_rows
  ∧ let out :=
      PerformanceTable.sortedEmployees 0%nat "attendance_rate"
        (sample_heap sample_rows) in
    out.1 ≠ 0%nat
    ∧ out.2 !! 0%nat = Some sample_rows
    ∧ untouched (sample_heap sample_rows) out.2
    ∧ ∃ sorted, out.2 !! out.1 = Some sorted ∧ sample_rows ≡ₚ sorted.
Proof.
  split; [reflexivity|].
  apply (sorted_employees_permutes_a_copy 0%nat "attendance_rate"
           (sample_heap sample_rows) sample_rows).
  reflexivity.
Defined.

Lemma top_performers_witness :
  AnalyticsStore.clusteringResults (sample_store 7) = Some (sample_response 7)
  ∧ sample_heap sample_rows !! Api.results (sample_response 7)
    = Some sample_rows
  ∧ let out :=
      AnalyticsStore.topPerformers (sample_store 7) (sample_heap sample_rows)
    in
    out.2 !! Api.results (sample_response 7) = Some sample_rows
    ∧ untouched (sample_heap sample_rows) out.2
    ∧ ∃ top rest,
        out.2 !! out.1 = Some top
        ∧ length top = min 5 (length sample_rows)
        ∧ sample_rows ≡ₚ top ++ rest
        ∧ StronglySorted outranks top.
Proof.
  split; [reflexivity|]. split; [reflexivity|].
  apply (top_performers_are_sorted_prefix_of_a_copy (sample_store 7)
           (sample_heap sample_rows) (sample_response 7) sample_rows);
    reflexivity.
Defined.

Lemma fetch_failure_witness :
  let s := sample_store 7 in
  let after := (AnalyticsStore.fetchClusteringAnalysis unreachable
                  (Some "2024-03-01") None None s []).1 in
  (Api.getQuickClusteringAnalysis unreachable (Some "2024-03-01") None
     (Some 3%Z) []).1 = Api.Rejected "Network Error"
  ∧ AnalyticsStore.loading after = false
  ∧ AnalyticsStore.clusteringResults after = Some (sample_response 7)
  ∧ AnalyticsStore.error after = Some "Failed to fetch clustering analysis".
Proof.
  cbv zeta. split; [reflexivity|].
  destruct (fetch_failure_keeps_data_and_clears_loading unreachable
              (Some "2024-03-01") None None None (sample_store 7) [])
    as ((_ & _ & Hloading & _) & _ & _ & Hclustering & _).
  split; [exact Hloading|].
  exact (Hclustering "Network Error" eq_refl).
Defined.

Lemma extracted_scores_witness :
  ∃ fv,
    Core.extract weekdays 540 sample_sqrt sample_heuristic
      (Some 19783%Z) (Some 19813%Z) (march_records "ani") = Core.Ok fv
    ∧ scores_within fv
    ∧ (Core.punctuality_score fv == 100)%Q
    ∧ (Core.consistency_score fv == 100)%Q
    ∧ (Core.attendance_rate fv == 2000 # 21)%Q.
Proof.
  eexists. split; [vm_compute; reflexivity|]. split.
  - eapply (extracted_scores_within_bounds weekdays 540 sample_sqrt
              sample_heuristic (Some 19783%Z) (Some 19813%Z)
              (march_records "ani")).
    vm_compute. reflexivity.
  - repeat split; vm_compute; reflexivity.
Defined.

(** ** Calendar arithmetic *)

Section calendar_facts.
Import Calendar.
Local Open Scope Z_scope.

(** Within a 400-year era, the year that starts on 1 March and the day
    within it give the day of the era, and the year is read back from it. *)
Lemma year_of_era_back (yoe doy : Z) :
  0 <= yoe <= 399 →
  0 <= doy <= 364
  ∨ (doy = 365 ∧ (yoe + 1) mod 4 = 0
     ∧ ((yoe + 1) mod 100 ≠ 0 ∨ yoe = 399)) →
  let doe := yoe * 365 + yoe / 4 - yoe / 100 + doy in
  0 <= doe < 146097
  ∧ (doe - doe / 1460 + doe / 36524 - doe / 146096) / 365 = yoe.
Proof.
  intros Hy Hd. cbv zeta. Z.div_mod_to_equations. lia.
Qed.

Lemma day_of_year_range (doe : Z) :
  0 <= doe < 146097 →
  let yoe := (doe - doe / 1460 + doe / 36524 - doe / 146096) / 365 in
  0 <= doe - (365 * yoe + yoe / 4 - yoe / 100) <= 365.
Proof.
  intros Hdoe. cbv zeta. Z.div_mod_to_equations. lia.
Qed.

Lemma is_leap_spec (y : Z) :
  is_leap y = true ↔ y mod 4 = 0 ∧ (y mod 100 ≠ 0 ∨ y mod 400 = 0).
Proof.
  unfold is_leap.
  rewrite orb_true_iff, andb_true_iff, negb_true_iff, !Z.eqb_eq, Z.eqb_neq.
  split.
  - intros [[H4 H100] | H400]; [tauto|].
    split; [|tauto]. Z.div_mod_to_equations. lia.
  - intros [H4 [H100 | H400]]; tauto.
Qed.

Lemma days_in_month_cases (y m : Z) :
  1 <= m <= 12 →
  (m = 2 ∧ ((is_leap y = true ∧ days_in_month y m = 29)
            ∨ (is_leap y = false ∧ days_in_month y m = 28)))
  ∨ ((m = 4 ∨ m = 6 ∨ m = 9 ∨ m = 11) ∧ days_in_month y m = 30)
  ∨ ((m = 1 ∨ m = 3 ∨ m = 5 ∨ m = 7 ∨ m = 8 ∨ m = 10 ∨ m = 12)
     ∧ days_in_month y m = 31).
Proof.
  intros Hm. unfold days_in_month.
  assert (m = 1 ∨ m = 2 ∨ m = 3 ∨ m = 4 ∨ m = 5 ∨ m = 6 ∨ m = 7
          ∨ m = 8 ∨ m = 9 ∨ m = 10 ∨ m = 11 ∨ m = 12) as Hcases by lia.
  destruct Hcases as [->|[->|[->|[->|[->|[->|[->|[->|[->|[->|[->| ->]]]]]]]]]]];
    cbn; try (destruct (is_leap y)); intuition lia.
Qed.

(** A date of the calendar is read back from its day number. *)
Lemma civil_from_days_from_civil (y m d : Z) :
  1 <= m <= 12 → 1 <= d <= days_in_month y m →
  civil_from_days (days_from_civil y m d) = (y, m, d).
Proof.
  intros Hm Hd.
  unfold days_from_civil.
  set (y' := if m <=? 2 then y - 1 else y).
  set (era := y' / 400).
  set (yoe := y' - era * 400).
  set (mp := if m >? 2 then m - 3 else m + 9).
  set (doy := (153 * mp + 2) / 5 + d - 1).
  assert (0 <= yoe <= 399) as Hyoe.
  { subst yoe era. Z.div_mod_to_equations. lia. }
  assert (mp = m - 3 ∧ 3 <= m ∨ mp = m + 9 ∧ m <= 2) as Hmpm.
  { subst mp. destruct (Z.gtb_spec m 2); lia. }
  assert (m = (if mp <? 10 then mp + 3 else mp - 9)) as Hmback.
  { destruct (Z.ltb_spec mp 10); lia. }
  assert (is_leap y = true → m = 2 →
          (yoe + 1) mod 4 = 0 ∧ ((yoe + 1) mod 100 ≠ 0 ∨ yoe = 399))
    as Hleap.
  { intros Hl ->. apply is_leap_spec in Hl.
    assert (y = era * 400 + yoe + 1) as Hy.
    { subst yoe y'. cbn. lia. }
    rewrite Hy in Hl. clear -Hl Hyoe.
    Z.div_mod_to_equations. lia. }
  pose proof (days_in_month_cases y m Hm) as Hdim.
  assert (d <= 29 ∧ mp = 11
          ∨ d <= 30 ∧ (mp = 1 ∨ mp = 3 ∨ mp = 6 ∨ mp = 8)
          ∨ d <= 31 ∧ (mp = 0 ∨ mp = 2 ∨ mp = 4 ∨ mp = 5 ∨ mp = 7
                       ∨ mp = 9 ∨ mp = 10)) as Hlen by lia.
  assert (0 <= doy <= 364
          ∨ (doy = 365 ∧ (yoe + 1) mod 4 = 0
             ∧ ((yoe + 1) mod 100 ≠ 0 ∨ yoe = 399))) as Hdoy.
  { clearbody mp. subst doy.
    destruct Hdim as [(-> & [[Hl Hdim] | [Hl Hdim]])
                     | [(Hms & Hdim) | (Hms & Hdim)]].
    - specialize (Hleap Hl eq_refl).
      assert (mp = 11) as -> by lia.
      change ((153 * 11 + 2) / 5) with 337. lia.
    - assert (mp = 11) as -> by lia.
      change ((153 * 11 + 2) / 5) with 337. lia.
    - left. Z.div_mod_to_equations. lia.
    - left. Z.div_mod_to_equations. lia. }
  pose proof (year_of_era_back yoe doy Hyoe Hdoy) as (Hdoe & Hback).
  cbv zeta in Hdoe, Hback.
  set (doe := yoe * 365 + yoe / 4 - yoe / 100 + doy) in *.
  unfold civil_from_days.
  replace (era * 146097 + doe - 719468 + 719468) with (doe + era * 146097)
    by ring.
  rewrite Z.div_add by lia.
  rewrite (Z.div_small doe 146097) by lia.
  replace (doe + era * 146097 - (0 + era) * 146097) with doe by ring.
  rewrite Hback.
  replace (doe - (365 * yoe + yoe / 4 - yoe / 100)) with doy
    by (subst doe; ring).
  assert ((5 * doy + 2) / 153 = mp) as ->.
  { subst doy. clear -Hlen Hd.
    destruct Hlen as [[? ->] | [[? Hc] | [? Hc]]];
      repeat (destruct Hc as [-> | Hc]); try subst mp;
      Z.div_mod_to_equations; lia. }
  rewrite <- Hmback.
  f_equal; [f_equal|].
  - subst yoe y'. destruct (m <=? 2); ring.
  - subst doy. ring.
Qed.

(** The month of any day number is one of the twelve. *)
Lemma civil_from_days_month (z y m d : Z) :
  civil_from_days z = (y, m, d) → 1 <= m <= 12.
Proof.
  unfold civil_from_days.
  set (era := (z + 719468) / 146097).
  set (doe := z + 719468 - era * 146097).
  assert (0 <= doe < 146097) as Hdoe.
  { subst doe era. Z.div_mod_to_equations. lia. }
  pose proof (day_of_year_range doe Hdoe) as Hdoy. cbv zeta in Hdoy.
  set (yoe := (doe - doe / 1460 + doe / 36524 - doe / 146096) / 365) in *.
  set (doy := doe - (365 * yoe + yoe / 4 - yoe / 100)) in *.
  set (mp := (5 * doy + 2) / 153).
  assert (0 <= mp <= 11) as Hmp.
  { subst mp. clearbody doy. Z.div_mod_to_equations. lia. }
  intros [= _ <- _]. destruct (Z.ltb_spec mp 10); lia.
Qed.

Lemma days_from_civil_day (y m d : Z) :
  days_from_civil y m d = days_from_civil y m 1 + (d - 1).
Proof. unfold days_from_civil. ring. Qed.

Lemma days_from_civil_from_march (y m d : Z) :
  3 <= m →
  days_from_civil y m d
  = y / 400 * 146097
    + ((y - y / 400 * 400) * 365 + (y - y / 400 * 400) / 4
       - (y - y / 400 * 400) / 100 + ((153 * (m - 3) + 2) / 5 + d - 1))
    - 719468.
Proof.
  intros Hm. unfold days_from_civil.
  destruct (Z.leb_spec m 2); [lia|]. destruct (Z.gtb_spec m 2); [|lia].
  reflexivity.
Qed.

Lemma days_from_civil_to_february (y m d : Z) :
  m <= 2 →
  days_from_civil y m d
  = (y - 1) / 400 * 146097
    + ((y - 1 - (y - 1) / 400 * 400) * 365 + (y - 1 - (y - 1) / 400 * 400) / 4
       - (y - 1 - (y - 1) / 400 * 400) / 100 + ((153 * (m + 9) + 2) / 5 + d - 1))
    - 719468.
Proof.
  intros Hm. unfold days_from_civil.
  destruct (Z.leb_spec m 2); [|lia]. destruct (Z.gtb_spec m 2); [lia|].
  reflexivity.
Qed.

(** The first day of the next month follows the last day of the month. *)
Lemma days_from_civil_next_month (y m : Z) :
  1 <= m <= 12 →
  days_from_civil (next_month y m).1 (next_month y m).2 1
  = days_from_civil y m (days_in_month y m) + 1.
Proof.
  intros Hm.
  assert (m = 1 ∨ m = 2 ∨ m = 3 ∨ m = 4 ∨ m = 5 ∨ m = 6 ∨ m = 7
          ∨ m = 8 ∨ m = 9 ∨ m = 10 ∨ m = 11 ∨ m = 12) as Hcases by lia.
  pose proof (is_leap_spec y) as Hleap.
  unfold next_month, days_in_month.
  destruct Hcases as [->|[->|[->|[->|[->|[->|[->|[->|[->|[->|[->| ->]]]]]]]]]]];
    cbn [Z.eqb Pos.eqb orb fst snd];
    try (rewrite !(days_from_civil_from_march y) by lia;
         clear Hleap; Z.div_mod_to_equations; lia).
  - rewrite !(days_from_civil_to_february y) by lia.
    clear Hleap. Z.div_mod_to_equations. lia.
  - rewrite (days_from_civil_to_february y 2) by lia.
    rewrite (days_from_civil_from_march y (2 + 1)) by lia.
    destruct (is_leap y).
    + assert (y mod 4 = 0 ∧ (y mod 100 ≠ 0 ∨ y mod 400 = 0)) as Hl
        by (by apply Hleap).
      clear Hleap. Z.div_mod_to_equations. lia.
    + assert (¬ (y mod 4 = 0 ∧ (y mod 100 ≠ 0 ∨ y mod 400 = 0))) as Hl
        by (intros Hc; apply Hleap in Hc; congruence).
      clear Hleap. Z.div_mod_to_equations. lia.
  - rewrite (days_from_civil_to_february (y + 1) 1) by lia.
    rewrite (days_from_civil_from_march y 12) by lia.
    replace (y + 1 - 1) with y by ring.
    clear Hleap. Z.div_mod_to_equations. lia.
Qed.

Lemma next_of_previous_month (y m : Z) :
  1 <= m <= 12 →
  next_month (previous_month y m).1 (previous_month y m).2 = (y, m)
  ∧ 1 <= (previous_month y m).2 <= 12.
Proof.
  intros Hm. unfold previous_month, next_month.
  destruct (Z.eqb_spec m 1) as [->|Hne]; cbn [fst snd].
  - split; [|lia]. cbn. f_equal. ring.
  - destruct (Z.eqb_spec (m - 1) 12); [lia|]. split; [|lia]. f_equal. ring.
Qed.

(** The day before the first of a month is the last day of the month
    before, and the day before that its last but one. *)
Lemma civil_before_first_of_month (y m : Z) :
  1 <= m <= 12 →
  let '(py, pm) := previous_month y m in
  civil_from_days (days_from_civil y m 1 - 1) = (py, pm, days_in_month py pm)
  ∧ civil_from_days (days_from_civil y m 1 - 2)
    = (py, pm, days_in_month py pm - 1).
Proof.
  intros Hm. pose proof (next_of_previous_month y m Hm) as [Hnext Hpm].
  destruct (previous_month y m) as [py pm]. cbn [fst snd] in *.
  pose proof (days_from_civil_next_month py pm Hpm) as Hday.
  rewrite Hnext in Hday. cbn [fst snd] in Hday.
  pose proof (days_in_month_cases py pm Hpm) as Hdim.
  split.
  - replace (days_from_civil y m 1 - 1)
      with (days_from_civil py pm (days_in_month py pm)) by lia.
    apply civil_from_days_from_civil; lia.
  - replace (days_from_civil y m 1 - 2)
      with (days_from_civil py pm (days_in_month py pm - 1))
      by (rewrite (days_from_civil_day py pm (days_in_month py pm)) in Hday;
          rewrite (days_from_civil_day py pm (days_in_month py pm - 1)); lia).
    apply civil_from_days_from_civil; lia.
Qed.
End calendar_facts.

(** ** The month shortcuts on every host *)

Section shortcut_facts.
Import Calendar DateRangePicker.
Local Open Scope Z_scope.

Lemma previous_of_next_month (y m : Z) :
  1 <= m <= 12 →
  previous_month (next_month y m).1 (next_month y m).2 = (y, m)
  ∧ 1 <= (next_month y m).2 <= 12.
Proof.
  intros Hm. unfold previous_month, next_month.
  destruct (Z.eqb_spec m 12) as [->|Hne]; cbn [fst snd].
  - split; [|lia]. cbn. f_equal. ring.
  - destruct (Z.eqb_spec (m + 1) 1); [lia|]. split; [|lia]. f_equal. ring.
Qed.

(** [new Date(year, k, d)] for a year outside 0..99 and a month index [k]
    that denotes month [m'] of year [y']. *)
Lemma new_Date_at (tz y k d y' m' : Z) :
  ¬ (0 <= y <= 99) → 1 <= m' <= 12 → k = 12 * (y' - y) + (m' - 1) →
  new_Date tz y k d
  = (days_from_civil y' m' 1 + d - 1) * msPerDay - tz * 60000.
Proof.
  intros Hy Hm Hk. unfold new_Date, localTZA.
  assert ((0 <=? y) && (y <=? 99) = false) as ->.
  { destruct (Z.leb_spec 0 y), (Z.leb_spec y 99); try reflexivity. lia. }
  assert (k / 12 = y' - y) as -> by (Z.div_mod_to_equations; lia).
  assert (k mod 12 = m' - 1) as -> by (Z.div_mod_to_equations; lia).
  replace (y + (y' - y)) with y' by ring.
  replace (m' - 1 + 1) with m' by ring.
  reflexivity.
Qed.

(** The UTC day of a local midnight: the same day at or west of UTC, the
    day before east of it. *)
Lemma utc_day_west (tz day : Z) :
  -1440 < tz <= 0 → (day * msPerDay - tz * 60000) / msPerDay = day.
Proof. intros Htz. unfold msPerDay. Z.div_mod_to_equations. lia. Qed.

Lemma utc_day_east (tz day : Z) :
  0 < tz <= 1440 → (day * msPerDay - tz * 60000) / msPerDay = day - 1.
Proof. intros Htz. unfold msPerDay. Z.div_mod_to_equations. lia. Qed.

Lemma local_fields (tz now y m d : Z) :
  local_date tz now = (y, m, d) →
  getFullYear tz now = y ∧ getMonth tz now = m - 1 ∧ 1 <= m <= 12.
Proof.
  unfold local_date, getFullYear, getMonth, localTZA. intros Hlocal.
  pose proof (civil_from_days_month _ _ _ _ Hlocal) as Hm.
  rewrite Hlocal. done.
Qed.

(** The four dates the shortcuts construct, as day numbers. *)
Lemma shortcut_dates (tz now y m d : Z) :
  local_date tz now = (y, m, d) → ¬ (0 <= y <= 99) →
  let '(py, pm) := previous_month y m in
  let '(ny, nm) := next_month y m in
  new_Date tz (getFullYear tz now) (getMonth tz now) 1
  = days_from_civil y m 1 * msPerDay - tz * 60000
  ∧ new_Date tz (getFullYear tz now) (getMonth tz now + 1) 0
    = (days_from_civil ny nm 1 - 1) * msPerDay - tz * 60000
  ∧ new_Date tz (getFullYear tz now) (getMonth tz now - 1) 1
    = days_from_civil py pm 1 * msPerDay - tz * 60000
  ∧ new_Date tz (getFullYear tz now) (getMonth tz now) 0
    = (days_from_civil y m 1 - 1) * msPerDay - tz * 60000.
Proof.
  intros Hlocal Hy.
  apply local_fields in Hlocal as (-> & -> & Hm).
  pose proof (next_of_previous_month y m Hm) as [_ Hpm].
  pose proof (previous_of_next_month y m Hm) as [_ Hnm].
  assert (m - 1 - 1 = 12 * ((previous_month y m).1 - y)
                      + ((previous_month y m).2 - 1)) as Hp.
  { unfold previous_month. destruct (Z.eqb_spec m 1); cbn [fst snd]; lia. }
  assert (m - 1 + 1 = 12 * ((next_month y m).1 - y)
                      + ((next_month y m).2 - 1)) as Hn.
  { unfold next_month. destruct (Z.eqb_spec m 12); cbn [fst snd]; lia. }
  destruct (previous_month y m) as [py pm], (next_month y m) as [ny nm].
  cbn [fst snd] in *.
  split; [|split; [|split]].
  - rewrite (new_Date_at tz y (m - 1) 1 y m) by lia. ring.
  - rewrite (new_Date_at tz y (m - 1 + 1) 0 ny nm) by lia. ring.
  - rewrite (new_Date_at tz y (m - 1 - 1) 1 py pm) by lia. ring.
  - rewrite (new_Date_at tz y (m - 1) 0 y m) by lia. ring.
Qed.

(** X20. On a host at or west of UTC (and outside the years 0..99) the two
    shortcuts emit the bounds of the current and of the previous month,
    whatever the moment. *)
Theorem month_shortcuts_at_or_west_of_utc (tz now y m d : Z) (c : Picker) :
  -1440 < tz <= 0 → local_date tz now = (y, m, d) → ¬ (0 <= y <= 99) →
  (setCurrentMonth tz now c).2
  = [UpdateDateFrom (month_bounds y m).1; UpdateDateTo (month_bounds y m).2]
  ∧ (setLastMonth tz now c).2
    = [UpdateDateFrom
         (month_bounds (previous_month y m).1 (previous_month y m).2).1;
       UpdateDateTo
         (month_bounds (previous_month y m).1 (previous_month y m).2).2].
Proof.
  intros Htz Hlocal Hy.
  pose proof (shortcut_dates tz now y m d Hlocal Hy) as Hdates.
  apply local_fields in Hlocal as (_ & _ & Hm).
  pose proof (next_of_previous_month y m Hm) as [_ Hpm].
  pose proof (previous_of_next_month y m Hm) as [Hback Hnm].
  pose proof (civil_before_first_of_month y m Hm) as Hprev.
  pose proof (civil_before_first_of_month (next_month y m).1
                (next_month y m).2 Hnm) as Hlast.
  rewrite Hback in Hlast.
  destruct (previous_month y m) as [py pm], (next_month y m) as [ny nm].
  cbn [fst snd] in *.
  destruct Hdates as (Hf & Hl & Hpf & Hpl), Hprev as [Hprev _],
    Hlast as [Hlast _].
  pose proof (days_in_month_cases y m Hm) as Hdim.
  pose proof (days_in_month_cases py pm Hpm) as Hpdim.
  unfold setCurrentMonth, setLastMonth, updateDates, toISOString_date,
    month_bounds.
  cbn [fst snd localDateFrom localDateTo].
  rewrite Hf, Hl, Hpf, Hpl, !utc_day_west by done.
  rewrite Hprev, Hlast, !civil_from_days_from_civil by lia.
  done.
Qed.

(** X21. On a host east of UTC (and outside the years 0..99) both bounds of
    both shortcuts are one day early, whatever the moment. *)
Theorem month_shortcuts_east_of_utc_day_early
    (tz now y m d : Z) (c : Picker) :
  0 < tz <= 1440 → local_date tz now = (y, m, d) → ¬ (0 <= y <= 99) →
  (setCurrentMonth tz now c).2
  = [UpdateDateFrom (month_bounds_day_early y m).1;
     UpdateDateTo (month_bounds_day_early y m).2]
  ∧ (setLastMonth tz now c).2
    = [UpdateDateFrom
         (month_bounds_day_early (previous_month y m).1
            (previous_month y m).2).1;
       UpdateDateTo
         (month_bounds_day_early (previous_month y m).1
            (previous_month y m).2).2].
Proof.
  intros Htz Hlocal Hy.
  pose proof (shortcut_dates tz now y m d Hlocal Hy) as Hdates.
  apply local_fields in Hlocal as (_ & _ & Hm).
  pose proof (next_of_previous_month y m Hm) as [_ Hpm].
  pose proof (previous_of_next_month y m Hm) as [Hback Hnm].
  pose proof (civil_before_first_of_month y m Hm) as Hprev.
  pose proof (civil_before_first_of_month (next_month y m).1
                (next_month y m).2 Hnm) as Hlast.
  rewrite Hback in Hlast.
  pose proof (civil_before_first_of_month (previous_month y m).1
                (previous_month y m).2 Hpm) as Hbefore.
  unfold month_bounds_day_early.
  destruct (previous_month y m) as [py pm], (next_month y m) as [ny nm].
  cbn [fst snd] in *.
  destruct (previous_month py pm) as [ppy ppm].
  destruct Hdates as (Hf & Hl & Hpf & Hpl), Hprev as [Hprev1 Hprev2],
    Hlast as [_ Hlast], Hbefore as [Hbefore _].
  unfold setCurrentMonth, setLastMonth, updateDates, toISOString_date.
  cbn [fst snd localDateFrom localDateTo].
  rewrite Hf, Hl, Hpf, Hpl, !utc_day_east by done.
  replace (days_from_civil ny nm 1 - 1 - 1) with (days_from_civil ny nm 1 - 2)
    by ring.
  replace (days_from_civil y m 1 - 1 - 1) with (days_from_civil y m 1 - 2)
    by ring.
  by rewrite Hprev1, Hprev2, Hlast, Hbefore.
Qed.
End shortcut_facts.

(** ** More on the cluster distribution *)

Lemma sum_counts_insert (d : gmap string JS.Value) (l : string) (n : Z) :
  (0 <= n)%Z →
  d !! l = (if decide (n = 0%Z) then None else Some (JS.VNumber n)) →
  sum_list_with (λ p, counted p.2) (map_to_list (<[l := JS.VNumber (n + 1)]> d))
  = S (sum_list_with (λ p, counted p.2) (map_to_list d)).
Proof.
  intros Hn Hl. destruct (decide (n = 0%Z)) as [->|Hnz].
  - rewrite map_to_list_insert by done. cbn. done.
  - rewrite <- insert_delete_eq.
    rewrite map_to_list_insert by apply lookup_delete_eq.
    rewrite <- (map_to_list_delete d l (JS.VNumber n)) by done.
    cbn. lia.
Qed.

Lemma sum_counts_of_entries (total : Q) (entries : list (string * JS.Value)) :
  sum_list_with (λ e, counted (AnalyticsStore.count e))
    ((λ '(l, c),
        {| AnalyticsStore.label := l; AnalyticsStore.count := c;
           AnalyticsStore.percentage :=
             JS.mul (JS.div (JS.to_number c) (JS.Finite total))
                    (JS.Finite 100) |}) <$> entries)
  = sum_list_with (λ p, counted p.2) entries.
Proof.
  induction entries as [|[l c] entries IH]; [reflexivity|].
  cbn. by rewrite IH.
Qed.

(** For rows whose labels do not resolve on [Object.prototype] the counts
    add up to the number of rows. *)
Lemma cluster_distribution_counts_add_up
    (s : AnalyticsStore.State) (h : gmap JS.ref (list Api.ClusteringResult))
    (response : Api.ClusteringResponse) (rows : list Api.ClusteringResult) :
  AnalyticsStore.clusteringResults s = Some response →
  h !! Api.results response = Some rows →
  Forall (λ r, ¬ inherited_name (Api.cluster_label r)) rows →
  sum_list_with (λ e, counted (AnalyticsStore.count e))
    (AnalyticsStore.clusterDistribution s h)
  = length rows.
Proof.
  intros Hstored Hrows Hplain.
  unfold AnalyticsStore.clusterDistribution, JS.read.
  rewrite Hstored, Hrows. cbn [default id].
  etrans; [apply sum_counts_of_entries|].
  clear Hstored Hrows.
  induction rows as [|r rows IH] using rev_ind; [done|].
  apply Forall_app in Hplain as [Hrest Hr]. rewrite Forall_singleton in Hr.
  rewrite distribution_of_snoc, length_app. cbn [length].
  pose proof (distribution_of_plain_labels rows Hrest (Api.cluster_label r))
    as Hlook.
  set (l := Api.cluster_label r) in *.
  set (d := AnalyticsStore.distribution_of rows) in *.
  assert (AnalyticsStore.tally d r
          = <[l := JS.VNumber (Z.of_nat (occurrences l rows) + 1)]> d) as ->.
  { unfold AnalyticsStore.tally, JS.set, JS.get. fold l.
    destruct (String.eqb_spec l "__proto__") as [Heq|_].
    { exfalso. apply Hr. rewrite Heq. discriminate. }
    rewrite Hlook. f_equal.
    destruct (decide (occurrences l rows = 0%nat)) as [Hz|Hnz].
    - destruct (JS.object_prototype_get l) eqn:Hget;
        [by rewrite Hz | exfalso; apply Hr; unfold inherited_name;
                         by rewrite Hget ..].
    - unfold JS.or, JS.truthy.
      destruct (Z.eqb_spec (Z.of_nat (occurrences l rows)) 0); [lia|done]. }
  rewrite sum_counts_insert; [rewrite (IH Hrest); lia | lia |].
  rewrite Hlook. repeat case_decide; try done; lia.
Qed.

(** * The rest of the code *)

(** ** [fetchAllData] *)

Section continuations.
Import AnalyticsStore.
Variable r1 : Api.Reply Api.AnalyticsOverview.
Variable r2 : Api.Reply (list Api.TeamPerformance).
Variable r3 : Api.Reply Api.ClusteringResponse.
Variable r4 : Api.Reply Api.DailyTrendsResponse.
Variable r5 : Api.Reply (list Api.RankedPerformance).

Lemma settle_all_snoc (s : State) (arrival : list Fetch) (a : Fetch) :
  settle_all r1 r2 r3 r4 r5 s (arrival ++ [a])
  = resume (pending r1 r2 r3 r4 r5 a) (settle_all r1 r2 r3 r4 r5 s arrival).
Proof. unfold settle_all. by rewrite foldl_app. Qed.

Lemma settle_all_loading (s : State) (arrival : list Fetch) :
  loading (settle_all r1 r2 r3 r4 r5 s arrival)
  = if arrival is [] then loading s else false.
Proof.
  destruct arrival as [|a arrival _] using rev_ind; [done|].
  rewrite settle_all_snoc. by destruct arrival, a.
Qed.

Lemma settle_all_dates (s : State) (arrival : list Fetch) :
  dateFrom (settle_all r1 r2 r3 r4 r5 s arrival) = dateFrom s
  ∧ dateTo (settle_all r1 r2 r3 r4 r5 s arrival) = dateTo s.
Proof.
  induction arrival as [|a arrival IH] using rev_ind; [done|].
  rewrite settle_all_snoc.
  destruct a; [destruct r1|destruct r2|destruct r3|destruct r4|destruct r5];
    exact IH.
Qed.

(** One continuation, ref by ref. *)
Lemma resume_data (a : Fetch) (s : State) :
  let s' := resume (pending r1 r2 r3 r4 r5 a) s in
  overview s'
  = (if decide (a = Overview) then stored_option r1 (overview s)
     else overview s)
  ∧ teamPerformance s'
    = (if decide (a = Team) then stored r2 (teamPerformance s)
       else teamPerformance s)
  ∧ clusteringResults s'
    = (if decide (a = Clustering) then stored_option r3 (clusteringResults s)
       else clusteringResults s)
  ∧ dailyTrends s'
    = (if decide (a = Trends) then stored_option r4 (dailyTrends s)
       else dailyTrends s)
  ∧ productivityRanking s'
    = (if decide (a = Ranking) then stored r5 (productivityRanking s)
       else productivityRanking s).
Proof.
  destruct a; [destruct r1|destruct r2|destruct r3|destruct r4|destruct r5];
    repeat split.
Qed.

Lemma stored_twice {A} (r : Api.Reply A) (x : A) :
  stored r (stored r x) = stored r x.
Proof. by destruct r. Qed.

Lemma stored_option_twice {A} (r : Api.Reply A) (x : option A) :
  stored_option r (stored_option r x) = stored_option r x.
Proof. by destruct r. Qed.

(** A ref that is written only by the continuation of action [target], and
    then always in the same way, holds after any number of continuations
    what one run of that continuation leaves. *)
Lemma settle_all_ref {B} (proj : State → B) (target : Fetch) (write : B → B)
    (s : State) (arrival : list Fetch) :
  (∀ a t, proj (resume (pending r1 r2 r3 r4 r5 a) t)
          = if decide (a = target) then write (proj t) else proj t) →
  (∀ b, write (write b) = write b) →
  proj (settle_all r1 r2 r3 r4 r5 s arrival)
  = if decide (target ∈ arrival) then write (proj s) else proj s.
Proof.
  intros Hstep Hidem.
  induction arrival as [|a arrival IH] using rev_ind.
  { rewrite decide_False by apply not_elem_of_nil. done. }
  rewrite settle_all_snoc, Hstep, IH.
  destruct (decide (a = target)) as [->|Hne].
  - rewrite (decide_True (P := target ∈ arrival ++ [target]))
      by (rewrite elem_of_app, list_elem_of_singleton; by right).
    case_decide; [apply Hidem | done].
  - destruct (decide (target ∈ arrival)) as [Hin|Hout].
    + rewrite decide_True by (rewrite elem_of_app; by left). done.
    + rewrite decide_False; [done|].
      rewrite elem_of_app, list_elem_of_singleton.
      intros [Hin | Heq]; [by apply Hout | by apply Hne].
Qed.

Lemma settle_all_data (s : State) (arrival : list Fetch) :
  let s' := settle_all r1 r2 r3 r4 r5 s arrival in
  overview s'
  = (if decide (Overview ∈ arrival) then stored_option r1 (overview s)
     else overview s)
  ∧ teamPerformance s'
    = (if decide (Team ∈ arrival) then stored r2 (teamPerformance s)
       else teamPerformance s)
  ∧ clusteringResults s'
    = (if decide (Clustering ∈ arrival)
       then stored_option r3 (clusteringResults s)
       else clusteringResults s)
  ∧ dailyTrends s'
    = (if decide (Trends ∈ arrival) then stored_option r4 (dailyTrends s)
       else dailyTrends s)
  ∧ productivityRanking s'
    = (if decide (Ranking ∈ arrival) then stored r5 (productivityRanking s)
       else productivityRanking s).
Proof.
  cbv zeta.
  split; [|split; [|split; [|split]]];
    (apply settle_all_ref;
     [intros a t; apply (resume_data a t)
     | first [apply stored_twice | apply stored_option_twice]]).
Qed.

(** The error after the continuations: the message of the last one whose
    call was rejected, or what it was when none was. *)
Lemma settle_all_error (s : State) (arrival : list Fetch) :
  error (settle_all r1 r2 r3 r4 r5 s arrival)
  = match last (filter (λ a, fails_with r1 r2 r3 r4 r5 a = true) arrival) with
    | Some a => Some (failure_message a)
    | None => error s
    end.
Proof.
  induction arrival as [|a arrival IH] using rev_ind; [done|].
  rewrite settle_all_snoc, filter_app, filter_cons, filter_nil.
  destruct (decide (fails_with r1 r2 r3 r4 r5 a = true)) as [Hfail|Hok].
  - rewrite last_snoc.
    destruct a; cbn in Hfail;
      [destruct r1|destruct r2|destruct r3|destruct r4|destruct r5];
      done.
  - rewrite app_nil_r, <- IH.
    destruct a; cbn in Hok;
      [destruct r1|destruct r2|destruct r3|destruct r4|destruct r5];
      done.
Qed.
End continuations.

Lemma fetchAllData_continuations
    (server : Api.Backend) (from to : option string)
    (arrival : list AnalyticsStore.Fetch)
    (s : AnalyticsStore.State) (wire : list Api.Request) :
  (AnalyticsStore.fetchAllData server from to arrival s wire).1
  = settle_all (overview_reply server from to) (team_reply server from to)
      (clustering_reply server from to) (trends_reply server from to)
      (ranking_reply server from to)
      (AnalyticsStore.enter
         (AnalyticsStore.set_dateTo (AnalyticsStore.or_empty to)
            (AnalyticsStore.set_dateFrom (AnalyticsStore.or_empty from) s)))
      arrival.
Proof. reflexivity. Qed.

Lemma all_fetches_arrive (arrival : list AnalyticsStore.Fetch)
    (a : AnalyticsStore.Fetch) :
  arrival ≡ₚ AnalyticsStore.all_fetches → a ∈ arrival.
Proof.
  intros Hperm. rewrite Hperm. unfold AnalyticsStore.all_fetches.
  destruct a; repeat (first [apply list_elem_of_here | apply list_elem_of_further]).
Qed.

(** X1. Once the five replies of [fetchAllData] are in, in whatever order:
    [loading] is false, the two date refs hold the arguments (or the empty
    string), and every data ref holds the new data if its call resolved and
    what it held before if the call was rejected. *)
Theorem fetch_all_data_outcome
    (server : Api.Backend) (from to : option string)
    (arrival : list AnalyticsStore.Fetch)
    (s : AnalyticsStore.State) (wire : list Api.Request) :
  arrival ≡ₚ AnalyticsStore.all_fetches →
  let s' := (AnalyticsStore.fetchAllData server from to arrival s wire).1 in
  AnalyticsStore.loading s' = false
  ∧ AnalyticsStore.dateFrom s' = default "" from
  ∧ AnalyticsStore.dateTo s' = default "" to
  ∧ AnalyticsStore.overview s'
    = stored_option (overview_reply server from to) (AnalyticsStore.overview s)
  ∧ AnalyticsStore.teamPerformance s'
    = stored (team_reply server from to) (AnalyticsStore.teamPerformance s)
  ∧ AnalyticsStore.clusteringResults s'
    = stored_option (clustering_reply server from to)
        (AnalyticsStore.clusteringResults s)
  ∧ AnalyticsStore.dailyTrends s'
    = stored_option (trends_reply server from to)
        (AnalyticsStore.dailyTrends s)
  ∧ AnalyticsStore.productivityRanking s'
    = stored (ranking_reply server from to)
        (AnalyticsStore.productivityRanking s).
Proof.
  intros Hperm. cbv zeta. rewrite fetchAllData_continuations.
  set (s0 := AnalyticsStore.enter _).
  pose proof (settle_all_loading (overview_reply server from to)
                (team_reply server from to) (clustering_reply server from to)
                (trends_reply server from to) (ranking_reply server from to)
                s0 arrival) as Hloading.
  pose proof (settle_all_dates (overview_reply server from to)
                (team_reply server from to) (clustering_reply server from to)
                (trends_reply server from to) (ranking_reply server from to)
                s0 arrival) as [Hfrom Hto].
  pose proof (settle_all_data (overview_reply server from to)
                (team_reply server from to) (clustering_reply server from to)
                (trends_reply server from to) (ranking_reply server from to)
                s0 arrival) as (H1 & H2 & H3 & H4 & H5).
  cbv zeta in H1, H2, H3, H4, H5.
  rewrite decide_True in H1 by by apply all_fetches_arrive.
  rewrite decide_True in H2 by by apply all_fetches_arrive.
  rewrite decide_True in H3 by by apply all_fetches_arrive.
  rewrite decide_True in H4 by by apply all_fetches_arrive.
  rewrite decide_True in H5 by by apply all_fetches_arrive.
  split.
  { rewrite Hloading. destruct arrival; [|done].
    apply Permutation_nil_l in Hperm. discriminate. }
  repeat split; assumption.
Qed.

(** X2. The error that [fetchAllData] leaves is the message of the action
    whose rejected reply came in last, so it is null exactly when all five
    calls resolved, and with several failures the order of arrival decides
    which message remains. *)
Theorem fetch_all_data_error
    (server : Api.Backend) (from to : option string)
    (arrival : list AnalyticsStore.Fetch)
    (s : AnalyticsStore.State) (wire : list Api.Request) :
  arrival ≡ₚ AnalyticsStore.all_fetches →
  let s' := (AnalyticsStore.fetchAllData server from to arrival s wire).1 in
  AnalyticsStore.error s'
  = failure_message
    <$> last (filter (λ a, fails server from to a = true) arrival)
  ∧ (AnalyticsStore.error s' = None
     ↔ ∀ a, fails server from to a = false).
Proof.
  intros Hperm. cbv zeta. rewrite fetchAllData_continuations.
  rewrite settle_all_error.
  change (filter _ arrival)
    with (filter (λ a, fails server from to a = true) arrival).
  set (failed := filter (λ a, fails server from to a = true) arrival).
  assert (AnalyticsStore.error
            (AnalyticsStore.enter
               (AnalyticsStore.set_dateTo (AnalyticsStore.or_empty to)
                  (AnalyticsStore.set_dateFrom (AnalyticsStore.or_empty from)
                     s))) = None) as -> by reflexivity.
  split; [by destruct (last failed)|].
  split.
  - intros Hnone a.
    destruct (fails server from to a) eqn:Hfail; [exfalso|done].
    assert (a ∈ failed) as Hin.
    { apply list_elem_of_filter. split; [done | by apply all_fetches_arrive]. }
    destruct failed as [|b failed' _] using rev_ind.
    + by apply elem_of_nil in Hin.
    + by rewrite last_snoc in Hnone.
  - intros Hall.
    assert (failed = []) as ->; [|done].
    destruct failed as [|b failed'] eqn:Hfailed; [done|].
    assert (b ∈ failed) as Hin by (rewrite Hfailed; apply list_elem_of_here).
    apply list_elem_of_filter in Hin as [Hfail _]. by rewrite Hall in Hfail.
Qed.

(** X3. While [fetchAllData] is under way, [loading] is true only until the
    first reply has come in: after any non-empty part of the replies it is
    false, although the other calls are still pending. *)
Theorem fetch_all_data_loading_stops_at_first_reply
    (server : Api.Backend) (from to : option string)
    (arrived : list AnalyticsStore.Fetch)
    (s : AnalyticsStore.State) (wire : list Api.Request) :
  AnalyticsStore.loading
    (AnalyticsStore.fetchAllData server from to arrived s wire).1
  = if arrived is [] then true else false.
Proof.
  rewrite fetchAllData_continuations, settle_all_loading. reflexivity.
Qed.

Lemma fetchAllData_wire
    (server : Api.Backend) (from to : option string)
    (arrival : list AnalyticsStore.Fetch)
    (s : AnalyticsStore.State) (wire : list Api.Request) :
  (AnalyticsStore.fetchAllData server from to arrival s wire).2
  = wire ++ load_requests from to.
Proof.
  unfold AnalyticsStore.fetchAllData, AnalyticsStore.call,
    Api.getAnalyticsOverview, Api.getTeamPerformance,
    Api.getQuickClusteringAnalysis, Api.getDailyTrends,
    Api.getProductivityRanking, Api.get, load_requests.
  cbn [snd default]. by rewrite <- !app_assoc.
Qed.

Lemma load_requests_carry (from to : option string) :
  Forall (λ req, carries "date_from" from req ∧ carries "date_to" to req)
    (load_requests from to).
Proof.
  unfold load_requests.
  repeat (apply Forall_cons; split; [by apply date_params_carry|]).
  apply Forall_nil_2.
Qed.

(** X4. [fetchAllData] makes exactly five requests, one to each of the five
    routes in the order of its array literal, before any reply is handled;
    all five carry the same date bounds (each present exactly when the
    argument is a non-empty string), the clustering request asks for 3
    clusters and the ranking request for 10 rows. *)
Theorem fetch_all_data_requests
    (server : Api.Backend) (from to : option string)
    (arrival : list AnalyticsStore.Fetch)
    (s : AnalyticsStore.State) (wire : list Api.Request) :
  ∃ reqs,
    (AnalyticsStore.fetchAllData server from to arrival s wire).2
    = wire ++ reqs
    ∧ Api.url <$> reqs
      = ["/api/v1/analytics/overview"; "/api/v1/analytics/team/performance";
         "/api/v1/ml/clustering/quick-analysis";
         "/api/v1/analytics/trends/daily";
         "/api/v1/analytics/productivity/ranking"]
    ∧ Forall (λ req, carries "date_from" from req ∧ carries "date_to" to req)
        reqs
    ∧ reqs !! 2%nat ≫= (λ req, Api.params req !! "n_clusters")
      = Some (JS.VNumber 3)
    ∧ reqs !! 4%nat ≫= (λ req, Api.params req !! "limit")
      = Some (JS.VNumber 10).
Proof.
  exists (load_requests from to).
  split; [apply fetchAllData_wire|]. split; [reflexivity|].
  split; [apply load_requests_carry|].
  split; cbn [load_requests lookup list_lookup mbind option_bind Api.params];
    rewrite date_params_keep by done; apply lookup_singleton_eq.
Qed.

(** ** App.vue *)

Lemma failure_message_not_empty (a : AnalyticsStore.Fetch) :
  String.eqb (failure_message a) "" = false.
Proof. by destruct a. Qed.

(** What the page's template reads off the store after a load. *)
Lemma load_settled
    (server : Api.Backend) (from to : option string)
    (arrival : list AnalyticsStore.Fetch)
    (s : AnalyticsStore.State) (wire : list Api.Request) :
  arrival ≡ₚ AnalyticsStore.all_fetches →
  let s' := (AnalyticsStore.fetchAllData server from to arrival s wire).1 in
  AnalyticsStore.loading s' = false
  ∧ AnalyticsStore.overview s'
    = stored_option (overview_reply server from to) (AnalyticsStore.overview s)
  ∧ AnalyticsStore.error s'
    = failure_message
      <$> last (filter (λ a, fails server from to a = true) arrival).
Proof.
  intros Hperm. cbv zeta. rewrite fetchAllData_continuations.
  set (s0 := AnalyticsStore.enter _).
  split; [|split].
  - rewrite settle_all_loading. destruct arrival; [|done].
    apply Permutation_nil_l in Hperm. discriminate.
  - pose proof (settle_all_data (overview_reply server from to)
                  (team_reply server from to)
                  (clustering_reply server from to)
                  (trends_reply server from to)
                  (ranking_reply server from to) s0 arrival) as (H1 & _).
    cbv zeta in H1.
    rewrite decide_True in H1 by by apply all_fetches_arrive.
    exact H1.
  - rewrite settle_all_error.
    change (filter _ arrival)
      with (filter (λ a, fails server from to a = true) arrival).
    by destruct (last _).
Qed.

(** X5. After a load the page never shows the spinner or the empty state:
    it shows the dashboard when all five calls resolved, and otherwise the
    error panel with the message of the failure that came in last, even
    though the data of the calls that resolved is in the store. *)
Theorem panel_after_load
    (server : Api.Backend) (from to : option string)
    (arrival : list AnalyticsStore.Fetch)
    (s : AnalyticsStore.State) (wire : list Api.Request) :
  arrival ≡ₚ AnalyticsStore.all_fetches →
  App.panel (AnalyticsStore.fetchAllData server from to arrival s wire).1
  = match last (filter (λ a, fails server from to a = true) arrival) with
    | Some a => App.ErrorPanel (failure_message a)
    | None => App.Dashboard
    end.
Proof.
  intros Hperm.
  pose proof (load_settled server from to arrival s wire Hperm)
    as (Hloading & Hoverview & Herror).
  cbv zeta in *.
  set (s' := (AnalyticsStore.fetchAllData server from to arrival s wire).1)
    in *.
  unfold App.panel. rewrite Hloading, Herror. cbn [andb].
  destruct (last _) as [a|] eqn:Hlast; cbn [fmap option_fmap option_map].
  - by rewrite failure_message_not_empty.
  - unfold AnalyticsStore.hasData. rewrite Hoverview.
    assert (fails server from to AnalyticsStore.Overview = false) as Hok.
    { destruct (fails server from to AnalyticsStore.Overview) eqn:Hfail;
        [exfalso|done].
      assert (AnalyticsStore.Overview
              ∈ filter (λ a, fails server from to a = true) arrival) as Hin.
      { apply list_elem_of_filter. split; [done|].
        by apply all_fetches_arrive. }
      destruct (filter _ arrival) as [|b failed _] using rev_ind.
      - by apply elem_of_nil in Hin.
      - by rewrite last_snoc in Hlast. }
    unfold fails, fails_with in Hok.
    by destruct (overview_reply server from to).
Qed.

Lemma load_requests_unbounded : Forall unbounded (load_requests None None).
Proof. repeat constructor. Qed.

Lemma or_empty_or_undefined (value : string) :
  AnalyticsStore.or_empty (App.or_undefined value) = value.
Proof.
  unfold App.or_undefined. by destruct (String.eqb_spec value "") as [->|].
Qed.

Lemma carries_or_undefined (k value : string) (req : Api.Request) :
  carries k (App.or_undefined value) req →
  Api.params req !! k
  = if decide (value = "") then None else Some (JS.VString value).
Proof.
  unfold carries, App.or_undefined. intros Hcarries.
  destruct (String.eqb_spec value "") as [->|Hne].
  - rewrite decide_True by done.
    apply eq_None_not_Some. intros [v Hv].
    apply Hcarries in Hv as (x & Hx & _). discriminate.
  - rewrite decide_False by done.
    apply Hcarries. by exists value.
Qed.

(** X6. [handleFilterApply] loads with the dates of the page's two refs: a
    request carries [date_from] (resp. [date_to]) exactly when the ref is not
    the empty string, with the ref's value, and afterwards the store's
    [dateFrom] and [dateTo] are the refs' values again. *)
Theorem filter_apply_sends_the_refs
    (server : Api.Backend) (arrival : list AnalyticsStore.Fetch)
    (v : App.View) (s : AnalyticsStore.State) (wire : list Api.Request) :
  let out := App.handleFilterApply server arrival v s wire in
  (∃ reqs,
     out.2 = wire ++ reqs
     ∧ length reqs = 5%nat
     ∧ Forall (λ req,
         Api.params req !! "date_from"
         = (if decide (App.dateFrom v = "") then None
            else Some (JS.VString (App.dateFrom v)))
         ∧ Api.params req !! "date_to"
           = (if decide (App.dateTo v = "") then None
              else Some (JS.VString (App.dateTo v)))) reqs)
  ∧ AnalyticsStore.dateFrom out.1 = App.dateFrom v
  ∧ AnalyticsStore.dateTo out.1 = App.dateTo v.
Proof.
  cbv zeta. unfold App.handleFilterApply. split.
  - eexists. split; [apply fetchAllData_wire|]. split; [reflexivity|].
    eapply Forall_impl; [apply load_requests_carry|].
    intros req [Hfrom Hto]. split; by apply carries_or_undefined.
  - rewrite fetchAllData_continuations.
    match goal with
    | |- context [settle_all ?a ?b ?c ?d ?e ?s0 arrival] =>
        pose proof (settle_all_dates a b c d e s0 arrival) as [-> ->]
    end.
    cbn. by rewrite !or_empty_or_undefined.
Qed.

(** X7. [handleRetry] does not look at the page's date refs: whatever dates
    the store held, it makes the five requests without date bounds and
    leaves the store's [dateFrom] and [dateTo] empty. *)
Theorem retry_drops_the_date_filter
    (server : Api.Backend) (arrival : list AnalyticsStore.Fetch)
    (s : AnalyticsStore.State) (wire : list Api.Request) :
  let out := App.handleRetry server arrival s wire in
  (∃ reqs, out.2 = wire ++ reqs ∧ length reqs = 5%nat ∧ Forall unbounded reqs)
  ∧ AnalyticsStore.dateFrom out.1 = ""
  ∧ AnalyticsStore.dateTo out.1 = "".
Proof.
  cbv zeta. unfold App.handleRetry, App.handleInitialLoad. split.
  - eexists. split; [apply fetchAllData_wire|]. split; [reflexivity|].
    apply load_requests_unbounded.
  - rewrite fetchAllData_continuations.
    match goal with
    | |- context [settle_all ?a ?b ?c ?d ?e ?s0 arrival] =>
        pose proof (settle_all_dates a b c d e s0 arrival) as [-> ->]
    end.
    done.
Qed.

(** X8. "All Time", then "Apply Filter": the picker's [clearDates] emits two
    empty strings, the page stores them in its refs, and the load that
    follows asks for all five results without date bounds. *)
Theorem all_time_then_apply_is_unbounded
    (server : Api.Backend) (arrival : list AnalyticsStore.Fetch)
    (c : DateRangePicker.Picker) (v : App.View)
    (s : AnalyticsStore.State) (wire : list Api.Request) :
  let v' := foldl (λ v e, App.receive e v) v (DateRangePicker.clearDates c).2 in
  let out := App.handleFilterApply server arrival v' s wire in
  ∃ reqs, out.2 = wire ++ reqs ∧ length reqs = 5%nat ∧ Forall unbounded reqs.
Proof.
  cbv zeta. unfold App.handleFilterApply.
  eexists. split; [apply fetchAllData_wire|]. split; [reflexivity|].
  apply load_requests_unbounded.
Qed.

(** X9. On mount the page first asks [/health]; when that call is rejected
    it makes no other request and leaves the store as it is, and when it
    resolves the five requests of an unfiltered load follow. *)
Theorem mount_loads_only_after_health_check
    (server : Api.Backend) (services : Api.Services)
    (arrival : list AnalyticsStore.Fetch) (v : App.View)
    (s : AnalyticsStore.State) (wire : list Api.Request) :
  let health := {| Api.url := "/health"; Api.params := ∅ |} in
  let out := App.onMounted server services arrival v s wire in
  match Api.health_route services health with
  | Api.Rejected _ =>
      App.apiStatus out.1.1 = false
      ∧ out.1.2 = s
      ∧ out.2 = wire ++ [health]
  | Api.Resolved _ =>
      App.apiStatus out.1.1 = true
      ∧ out.1.2 = (AnalyticsStore.fetchAllData server None None arrival s
                     (wire ++ [health])).1
      ∧ out.2 = wire ++ health :: load_requests None None
  end.
Proof.
  cbv zeta. unfold App.onMounted, App.checkApiStatus, Api.healthCheck, Api.get.
  destruct (Api.health_route services _) as [data|reason];
    cbn [App.apiStatus].
  - unfold App.handleInitialLoad.
    destruct (AnalyticsStore.fetchAllData server None None arrival s
                (wire ++ [{| Api.url := "/health"; Api.params := ∅ |}]))
      as [s' wire'] eqn:Hload.
    cbn [fst snd]. split; [done|]. split; [done|].
    pose proof (fetchAllData_wire server None None arrival s
                  (wire ++ [{| Api.url := "/health"; Api.params := ∅ |}]))
      as Hwire.
    rewrite Hload in Hwire. cbn [snd] in Hwire.
    by rewrite Hwire, <- app_assoc.
  - done.
Qed.

(** ** The remaining functions of [apiService] *)

Lemma set_if_nonzero_other (k k' : string) (arg : option Z)
    (ps : gmap string JS.Value) :
  k ≠ k' → Api.set_if_nonzero k arg ps !! k' = ps !! k'.
Proof.
  intros Hne. unfold Api.set_if_nonzero.
  destruct arg as [n|]; [|done].
  destruct (n =? 0)%Z; [done|]. by rewrite lookup_insert_ne.
Qed.

Lemma set_if_nonzero_same (k : string) (arg : option Z)
    (ps : gmap string JS.Value) (v : JS.Value) :
  ps !! k = None →
  Api.set_if_nonzero k arg ps !! k = Some v
  ↔ ∃ n, arg = Some n ∧ n ≠ 0%Z ∧ v = JS.VNumber n.
Proof.
  intros Hnone. unfold Api.set_if_nonzero.
  destruct arg as [n|].
  - destruct (Z.eqb_spec n 0) as [->|Hn].
    + rewrite Hnone. split; [done|]. intros (n & [= <-] & Hne & _). done.
    + rewrite lookup_insert_eq. split.
      * intros [= <-]. eauto.
      * intros (n' & [= <-] & _ & ->). done.
  - rewrite Hnone. split; [done|]. by intros (n & Hn & _).
Qed.

Lemma year_params (year : option Z) (n : Z) (u : string) :
  let req :=
    {| Api.url := u;
       Api.params :=
         Api.set_if_nonzero "year" year {["n_clusters" := JS.VNumber n]} |} in
  carries_number "year" year req
  ∧ Api.params req !! "n_clusters" = Some (JS.VNumber n).
Proof.
  cbv zeta. unfold carries_number. cbn [Api.params]. split.
  - intros v. apply set_if_nonzero_same. by apply lookup_singleton_ne.
  - rewrite set_if_nonzero_other by done. apply lookup_singleton_eq.
Qed.

Lemma period_params (k : string) (year part : option Z) (n : Z) (u : string) :
  k ≠ "year" → k ≠ "n_clusters" →
  let req :=
    {| Api.url := u;
       Api.params :=
         Api.set_if_nonzero k part
           (Api.set_if_nonzero "year" year
              {["n_clusters" := JS.VNumber n]}) |} in
  carries_number "year" year req
  ∧ carries_number k part req
  ∧ Api.params req !! "n_clusters" = Some (JS.VNumber n).
Proof.
  intros Hyear Hn. cbv zeta. unfold carries_number. cbn [Api.params].
  split; [|split].
  - intros v. rewrite set_if_nonzero_other by done.
    apply set_if_nonzero_same. by apply lookup_singleton_ne.
  - intros v. apply set_if_nonzero_same.
    rewrite set_if_nonzero_other by done. by apply lookup_singleton_ne.
  - rewrite !set_if_nonzero_other by done. apply lookup_singleton_eq.
Qed.

(** X10. The monthly, quarterly and yearly clustering functions always send
    [n_clusters] (3 when the caller gives none) and send [year], [month] and
    [quarter] exactly when the argument is a number other than zero: a year,
    month or quarter of 0 is left out like a missing one. *)
Theorem period_parameters_sent_iff_nonzero
    (services : Api.Services) (year month quarter nClusters : option Z)
    (wire : list Api.Request) :
  (∃ req,
     issued (Api.getMonthlyClusteringAnalysis services year month nClusters)
       wire req
     ∧ carries_number "year" year req ∧ carries_number "month" month req
     ∧ Api.params req !! "n_clusters"
       = Some (JS.VNumber (default 3%Z nClusters)))
  ∧ (∃ req,
       issued
         (Api.getQuarterlyClusteringAnalysis services year quarter nClusters)
         wire req
       ∧ carries_number "year" year req
       ∧ carries_number "quarter" quarter req
       ∧ Api.params req !! "n_clusters"
         = Some (JS.VNumber (default 3%Z nClusters)))
  ∧ (∃ req,
       issued (Api.getYearlyClusteringAnalysis services year nClusters)
         wire req
       ∧ carries_number "year" year req
       ∧ Api.params req !! "n_clusters"
         = Some (JS.VNumber (default 3%Z nClusters))).
Proof.
  split; [|split].
  - eexists. split; [reflexivity|]. by apply period_params.
  - eexists. split; [reflexivity|]. by apply period_params.
  - eexists. split; [reflexivity|]. by apply year_params.
Qed.

(** ** Order of the table and of the top performers *)

Section by_key.
Variable key : Api.ClusteringResult → Q.
Variable cmp : Api.ClusteringResult → Api.ClusteringResult → JS.Number.
Hypothesis cmp_key : ∀ a b, cmp a b = JS.Finite (key b - key a).

Lemma cmp_not_positive (a b : Api.ClusteringResult) :
  JS.is_positive (cmp a b) = false → ranks_before key a b.
Proof.
  rewrite cmp_key. unfold ranks_before. cbn.
  rewrite negb_false_iff, Qle_bool_iff. lra.
Qed.

Lemma cmp_positive (a b : Api.ClusteringResult) :
  JS.is_positive (cmp a b) = true → (key a < key b)%Q.
Proof.
  rewrite cmp_key. cbn. rewrite negb_true_iff. intros Hneg.
  destruct (Qlt_le_dec (key a) (key b)) as [Hlt | Hle]; [exact Hlt|].
  assert (key b - key a <= 0)%Q as Hc by lra.
  apply Qle_bool_iff in Hc. congruence.
Qed.

#[local] Instance ranks_before_transitive : Transitive (ranks_before key).
Proof. intros a b c. unfold ranks_before. lra. Qed.

Lemma sorted_elems_ranked (rows : list Api.ClusteringResult) :
  StronglySorted (ranks_before key) (JS.sorted_elems cmp rows).
Proof.
  apply Sorted_StronglySorted; [apply _|].
  apply sorted_elems_Sorted; [apply cmp_not_positive|].
  intros a b Hpos. apply cmp_positive in Hpos. unfold ranks_before. lra.
Qed.

(** Inserting a row does not change the order among the rows of one key:
    the row only moves past rows with a greater key. *)
Lemma insert_sorted_with_key (q : Q) (x : Api.ClusteringResult)
    (l : list Api.ClusteringResult) :
  with_key key q (JS.insert_sorted cmp x l) = with_key key q (x :: l).
Proof.
  unfold with_key. induction l as [|y l IH]; [done|].
  cbn [JS.insert_sorted].
  destruct (JS.is_positive (cmp x y)) eqn:Hxy; [|done].
  apply cmp_positive in Hxy.
  rewrite (filter_cons _ y), IH, !(filter_cons _ x), (filter_cons _ y).
  destruct (decide (Qeq_bool (key x) q = true)) as [Hx|Hx].
  - assert (Qeq_bool (key y) q ≠ true) as Hy.
    { intros Hy. apply Qeq_bool_iff in Hx, Hy. lra. }
    repeat case_decide; done.
  - repeat case_decide; done.
Qed.

Lemma sorted_elems_with_key (q : Q) (rows : list Api.ClusteringResult) :
  with_key key q (JS.sorted_elems cmp rows) = with_key key q rows.
Proof.
  induction rows as [|x rows IH]; [done|].
  change (JS.sorted_elems cmp (x :: rows))
    with (JS.insert_sorted cmp x (JS.sorted_elems cmp rows)).
  rewrite insert_sorted_with_key.
  unfold with_key in *. by rewrite !filter_cons, IH.
Qed.
End by_key.

Lemma comparator_by_key (sortBy : string) (a b : Api.ClusteringResult) :
  ¬ inherited_name sortBy →
  PerformanceTable.comparator sortBy a b
  = JS.Finite (sort_key sortBy b - sort_key sortBy a).
Proof.
  intros Hplain. unfold PerformanceTable.comparator, sort_key.
  destruct (String.eqb sortBy "performance_score"); [reflexivity|].
  assert (∀ f, PerformanceTable.feature_operand f sortBy
               = JS.Finite (default 0%Q (f !! sortBy))) as Hoperand.
  { intros f. unfold PerformanceTable.feature_operand.
    destruct (f !! sortBy); [reflexivity|].
    destruct (JS.object_prototype_get sortBy) eqn:Hget; try reflexivity;
      exfalso; apply Hplain; unfold inherited_name; by rewrite Hget. }
  by rewrite !Hoperand.
Qed.

(** X12. For every sort key that is no property name of [Object.prototype]
    (the four keys of the select among them) the table's rows are in
    non-increasing order of the key, where a feature that a row lacks counts
    as 0; and rows with equal keys keep the order in which [props.employees]
    has them. *)
Theorem sorted_employees_ranked_and_stable
    (employees : JS.ref) (sortBy : string)
    (h : gmap JS.ref (list Api.ClusteringResult))
    (rows : list Api.ClusteringResult) :
  h !! employees = Some rows → ¬ inherited_name sortBy →
  let out := PerformanceTable.sortedEmployees employees sortBy h in
  ∃ sorted,
    out.2 !! out.1 = Some sorted
    ∧ StronglySorted (ranks_before (sort_key sortBy)) sorted
    ∧ ∀ q, with_key (sort_key sortBy) q sorted
           = with_key (sort_key sortBy) q rows.
Proof.
  intros Hrows Hplain. cbv zeta. unfold PerformanceTable.sortedEmployees.
  pose proof (spread_sort (PerformanceTable.comparator sortBy) _ _ _ Hrows)
    as (_ & _ & Hout).
  destruct (JS.spread employees h) as [copy h1]. cbn [fst snd] in *.
  eexists. split; [exact Hout|]. split.
  - apply sorted_elems_ranked. intros a b. by apply comparator_by_key.
  - intros q. apply sorted_elems_with_key. intros a b.
    by apply comparator_by_key.
Qed.

(** X13. No row that [topPerformers] leaves out has a higher score than a
    row it shows: the rows shown and the rows left out make up [results],
    and every row shown has at least the score of every row left out. *)
Theorem top_performers_outrank_the_rest
    (s : AnalyticsStore.State) (h : gmap JS.ref (list Api.ClusteringResult))
    (response : Api.ClusteringResponse) (rows : list Api.ClusteringResult) :
  AnalyticsStore.clusteringResults s = Some response →
  h !! Api.results response = Some rows →
  let out := AnalyticsStore.topPerformers s h in
  ∃ top rest,
    out.2 !! out.1 = Some top
    ∧ rows ≡ₚ top ++ rest
    ∧ ∀ x y, x ∈ top → y ∈ rest → outranks x y.
Proof.
  intros Hstored Hrows. cbv zeta. unfold AnalyticsStore.topPerformers.
  rewrite Hstored.
  pose proof (spread_sort AnalyticsStore.by_score_descending _ _ _ Hrows)
    as (_ & _ & Hout).
  destruct (JS.spread (Api.results response) h) as [copy h1].
  cbn [fst snd] in Hout.
  destruct (JS.sort AnalyticsStore.by_score_descending copy h1)
    as [sorted h2] eqn:Hsort.
  cbn [fst snd] in Hout.
  set (all := JS.sorted_elems AnalyticsStore.by_score_descending rows) in *.
  exists (take 5 all), (drop 5 all). split; [|split].
  - unfold JS.slice_to, JS.read. rewrite Hout. apply alloc_lookup.
  - rewrite take_drop. apply sorted_elems_perm.
  - intros x y Hx Hy.
    assert (StronglySorted outranks (take 5 all ++ drop 5 all)) as Hsorted.
    { rewrite take_drop. apply Sorted_StronglySorted; [apply _|].
      apply sorted_elems_Sorted;
        [apply by_score_descending_le | apply by_score_descending_gt]. }
    by eapply StronglySorted_app_1_elem_of.
Qed.

(** X14. The top performers are the first five rows of the table in its
    initial sort (by performance score) of the same [results] array. *)
Theorem top_performers_head_the_table
    (s : AnalyticsStore.State) (h : gmap JS.ref (list Api.ClusteringResult))
    (response : Api.ClusteringResponse) (rows : list Api.ClusteringResult) :
  AnalyticsStore.clusteringResults s = Some response →
  h !! Api.results response = Some rows →
  let top := AnalyticsStore.topPerformers s h in
  let table :=
    PerformanceTable.sortedEmployees (Api.results response)
      "performance_score" h in
  ∃ sorted,
    table.2 !! table.1 = Some sorted
    ∧ top.2 !! top.1 = Some (take 5 sorted).
Proof.
  intros Hstored Hrows. cbv zeta.
  unfold AnalyticsStore.topPerformers, PerformanceTable.sortedEmployees.
  rewrite Hstored.
  pose proof (spread_sort AnalyticsStore.by_score_descending _ _ _ Hrows)
    as (_ & _ & Hout).
  change (PerformanceTable.comparator "performance_score")
    with AnalyticsStore.by_score_descending.
  destruct (JS.spread (Api.results response) h) as [copy h1].
  cbn [fst snd] in Hout.
  destruct (JS.sort AnalyticsStore.by_score_descending copy h1)
    as [sorted h2] eqn:Hsort.
  cbn [fst snd] in Hout.
  eexists. split; [exact Hout|].
  unfold JS.slice_to, JS.read. rewrite Hout. apply alloc_lookup.
Qed.

(** ** Badges, distribution, initials, colours, trends *)

(** X15. For every label that is no property name of [Object.prototype],
    [getClusterBadgeClass] answers with a class string, and that string is
    the gray fallback exactly when the label is none of the four cluster
    labels. *)
Theorem badge_class_of_plain_label (l : string) :
  ¬ inherited_name l →
  ∃ c, PerformanceTable.getClusterBadgeClass l = JS.VString c
       ∧ (c = "bg-gray-100 text-gray-800" ↔ l ∉ cluster_labels).
Proof.
  intros Hplain.
  destruct (decide (l ∈ cluster_labels)) as [Hin|Hout].
  - unfold cluster_labels in Hin.
    repeat (apply elem_of_cons in Hin as [-> | Hin];
            [eexists; split; [reflexivity|];
             split; [discriminate | intros Hno; exfalso; apply Hno;
                                    unfold cluster_labels;
                                    repeat first [apply list_elem_of_here
                                                 | apply list_elem_of_further]]
            |]).
    by apply elem_of_nil in Hin.
  - exists "bg-gray-100 text-gray-800". split; [|done].
    by apply badge_class_fallback.
Qed.

(** X16. For rows whose labels are no property names of [Object.prototype],
    [clusterDistribution] has one entry for each label that occurs in
    [results] and none for any other label, the count of an entry is the
    number of rows that bear its label, and the counts add up to the number
    of rows. *)
Theorem cluster_distribution_counts_the_rows
    (s : AnalyticsStore.State) (h : gmap JS.ref (list Api.ClusteringResult))
    (response : Api.ClusteringResponse) (rows : list Api.ClusteringResult) :
  AnalyticsStore.clusteringResults s = Some response →
  h !! Api.results response = Some rows →
  Forall (λ r, ¬ inherited_name (Api.cluster_label r)) rows →
  let entries := AnalyticsStore.clusterDistribution s h in
  NoDup (AnalyticsStore.label <$> entries)
  ∧ (∀ l, l ∈ AnalyticsStore.label <$> entries
          ↔ l ∈ Api.cluster_label <$> rows)
  ∧ Forall (λ e, AnalyticsStore.count e
                 = JS.VNumber
                     (Z.of_nat (occurrences (AnalyticsStore.label e) rows)))
      entries
  ∧ sum_list_with (λ e, counted (AnalyticsStore.count e)) entries
    = length rows.
Proof.
  intros Hstored Hrows Hplain. cbv zeta.
  pose proof (cluster_distribution_of_plain_labels s h response rows
                Hstored Hrows Hplain) as [Hnodup Hentries].
  assert (∀ l, (0 < occurrences l rows)%nat ↔ l ∈ Api.cluster_label <$> rows)
    as Hoccurs.
  { intros l. unfold occurrences. rewrite list_elem_of_fmap. split.
    - intros Hpos.
      destruct (filter (λ r, Api.cluster_label r = l) rows) as [|r rs] eqn:Hf;
        [cbn in Hpos; lia|].
      assert (r ∈ filter (λ r, Api.cluster_label r = l) rows) as Hin
        by (rewrite Hf; apply list_elem_of_here).
      apply list_elem_of_filter in Hin as [Hl Hin]. by exists r.
    - intros (r & -> & Hin).
      assert (r ∈ filter (λ r', Api.cluster_label r' = Api.cluster_label r)
                    rows) as Hf by by apply list_elem_of_filter.
      destruct (filter _ rows); [by apply elem_of_nil in Hf | cbn; lia]. }
  split; [exact Hnodup|]. split; [|split].
  - intros l. rewrite <- Hoccurs, list_elem_of_fmap. split.
    + intros (e & -> & He). by apply Hentries in He as [Hpos _].
    + intros Hpos.
      exists {| AnalyticsStore.label := l;
                AnalyticsStore.count :=
                  JS.VNumber (Z.of_nat (occurrences l rows));
                AnalyticsStore.percentage :=
                  share (occurrences l rows) (Api.total_users response) |}.
      split; [done|]. by apply Hentries.
  - apply Forall_forall. intros e He. by apply Hentries in He as (_ & Hc & _).
  - by apply (cluster_distribution_counts_add_up s h response rows).
Qed.

Lemma is_word_cons (c : Ascii.ascii) (w : string) :
  is_word (String c w)
  ↔ (c ≠ " "%char ∧ (Ascii.nat_of_ascii c < 128)%nat) ∧ is_word w.
Proof. unfold is_word. cbn. by rewrite Forall_cons. Qed.

Lemma split_word (w : string) :
  is_word w → PerformanceTable.split " " w = [w].
Proof.
  induction w as [|c w IH]; [done|].
  intros [[Hc _] Hw]%is_word_cons. cbn.
  destruct (Ascii.eqb_spec c " "); [done|]. by rewrite IH.
Qed.

Lemma split_word_then (w rest : string) :
  is_word w →
  PerformanceTable.split " " (w ++ String " " rest)
  = w :: PerformanceTable.split " " rest.
Proof.
  induction w as [|c w IH]; [done|].
  intros [[Hc _] Hw]%is_word_cons.
  change (PerformanceTable.split " " (String c w ++ String " " rest))
    with (if Ascii.eqb c " "
          then EmptyString :: PerformanceTable.split " " (w ++ String " " rest)
          else match PerformanceTable.split " " (w ++ String " " rest) with
               | word :: words => String c word :: words
               | [] => [String c EmptyString]
               end).
  rewrite IH by done. by destruct (Ascii.eqb_spec c " ").
Qed.

(** Splitting at the spaces undoes joining words with single spaces. *)
Lemma split_join (ws : list string) :
  ws ≠ [] → Forall is_word ws →
  PerformanceTable.split " " (String.concat " " ws) = ws.
Proof.
  induction ws as [|w ws IH]; [done|].
  intros _ [Hw Hws]%Forall_cons.
  destruct ws as [|w' ws].
  - cbn. by apply split_word.
  - change (String.concat " " (w :: w' :: ws))
      with (w ++ String " " (String.concat " " (w' :: ws)))%string.
    rewrite split_word_then by done. f_equal. by apply IH.
Qed.

(** X17. For a name made of ASCII words joined by single spaces (an empty
    word stands for a doubled, leading or trailing space), [getInitials] is
    the first two characters of the upper-cased first letters of the words;
    empty words contribute nothing, and a name whose first two words are not
    empty yields exactly their two upper-cased first letters. *)
Theorem initials_of_words (ws : list string) :
  ws ≠ [] → Forall is_word ws →
  PerformanceTable.getInitials (String.concat " " ws)
  = PerformanceTable.slice2
      (PerformanceTable.toUpperCase
         (String.concat "" (PerformanceTable.charAt0 <$> ws)))
  ∧ ∀ c1 w1 c2 w2 rest,
      ws = String c1 w1 :: String c2 w2 :: rest →
      PerformanceTable.getInitials (String.concat " " ws)
      = String (PerformanceTable.upper_char c1)
          (String (PerformanceTable.upper_char c2) EmptyString).
Proof.
  intros Hne Hwords.
  assert (PerformanceTable.getInitials (String.concat " " ws)
          = PerformanceTable.slice2
              (PerformanceTable.toUpperCase
                 (String.concat "" (PerformanceTable.charAt0 <$> ws))))
    as Heq.
  { unfold PerformanceTable.getInitials. by rewrite split_join. }
  split; [exact Heq|].
  intros c1 w1 c2 w2 rest ->. rewrite Heq.
  assert (∀ s, String.substring 0 0 s = EmptyString) as Hnone
    by (by intros [|? ?]).
  assert (∀ l, String.concat "" (String c1 "" :: String c2 "" :: l)
               = String c1 (String c2 (String.concat "" l))) as Hjoin
    by (by intros [|? ?]).
  change (PerformanceTable.charAt0 <$> String c1 w1 :: String c2 w2 :: rest)
    with (String c1 "" :: String c2 "" :: (PerformanceTable.charAt0 <$> rest)).
  rewrite Hjoin.
  change (String (PerformanceTable.upper_char c1)
            (String (PerformanceTable.upper_char c2)
               (String.substring 0 0
                  (PerformanceTable.toUpperCase
                     (String.concat "" (PerformanceTable.charAt0 <$> rest)))))
          = String (PerformanceTable.upper_char c1)
              (String (PerformanceTable.upper_char c2) EmptyString)).
  by rewrite Hnone.
Qed.

(** X18. Every segment of the cluster chart gets one of the four colours,
    and the colours repeat with period four: [getClusterColor] is defined
    for every index from 0 on, by the index modulo 4.  For a negative index
    it is undefined unless the index is a multiple of four. *)
Theorem cluster_colours_cycle (i : nat) :
  (∃ c, ClusterChart.getClusterColor (Z.of_nat i) = JS.VString c
        ∧ ClusterChart.clusterColors !! (i mod 4)%nat = Some c)
  ∧ ClusterChart.getClusterColor (Z.of_nat (i + 4))
    = ClusterChart.getClusterColor (Z.of_nat i)
  ∧ ClusterChart.getClusterColor (- Z.of_nat (S i))
    = (if (S i mod 4 =? 0)%nat then JS.VString "#ef4444" else JS.VUndefined)
  ∧ ∀ (A : Type) (clusterData : list A),
      (i < length clusterData)%nat →
      ClusterChart.segment_colours clusterData !! i
      = Some (ClusterChart.getClusterColor (Z.of_nat i)).
Proof.
  assert (∀ n : nat,
            Z.rem (Z.of_nat n) (Z.of_nat (length ClusterChart.clusterColors))
            = Z.of_nat (n mod 4)) as Hrem.
  { intros n. rewrite Z.rem_mod_nonneg by (cbn; lia).
    change (Z.of_nat (length ClusterChart.clusterColors)) with (Z.of_nat 4).
    by rewrite <- Nat2Z.inj_mod. }
  assert (∀ n : nat,
            ClusterChart.getClusterColor (Z.of_nat n)
            = match ClusterChart.clusterColors !! (n mod 4)%nat with
              | Some c => JS.VString c
              | None => JS.VUndefined
              end) as Hcolour.
  { intros n. unfold ClusterChart.getClusterColor. rewrite Hrem.
    destruct (Z.ltb_spec (Z.of_nat (n mod 4)) 0) as [Hneg|_]; [lia|].
    by rewrite Nat2Z.id. }
  split; [|split; [|split]].
  - rewrite Hcolour.
    pose proof (Nat.mod_upper_bound i 4 ltac:(lia)) as Hlt.
    destruct (i mod 4)%nat as [|[|[|[|k]]]]; [by eexists..|lia].
  - rewrite !Hcolour.
    replace ((i + 4) mod 4)%nat with (i mod 4)%nat; [done|].
    rewrite <- (Nat.Div0.mod_add i 1 4). f_equal; lia.
  - unfold ClusterChart.getClusterColor.
    rewrite Z.rem_opp_l', Hrem.
    pose proof (Nat.mod_upper_bound (S i) 4 ltac:(lia)) as Hlt.
    destruct (S i mod 4)%nat as [|k] eqn:Hmod; [reflexivity|].
    cbn [Nat.eqb].
    destruct (Z.ltb_spec (- Z.of_nat (S k)) 0) as [_|Hge]; [done | lia].
  - intros A clusterData Hlen. unfold ClusterChart.segment_colours.
    rewrite list_lookup_imap.
    destruct (lookup_lt_is_Some_2 clusterData i Hlen) as [x ->]. done.
Qed.

(** X19. A stat card shows its trend in red exactly when the trend begins
    with a minus sign, shows no trend class for a missing or empty trend,
    and shows every other trend in green, so the test for a leading plus
    never changes the outcome. *)
Theorem trend_class_by_sign (trend : option string) :
  (StatCard.trendClass trend = "text-red-600"
   ↔ ∃ t, trend = Some t ∧ StatCard.startsWith "-" t = true)
  ∧ (StatCard.trendClass trend = "" ↔ trend = None ∨ trend = Some "")
  ∧ (StatCard.trendClass trend = "text-green-600"
     ↔ ∃ t, trend = Some t ∧ t ≠ "" ∧ StatCard.startsWith "-" t = false).
Proof.
  destruct trend as [[|c t]|].
  - split; [|split]; cbn.
    + split; [done | by intros (t & [= <-] & H)].
    + split; auto.
    + split; [done | by intros (t & [= <-] & H & _)].
  - assert (StatCard.trendClass (Some (String c t))
            = if Ascii.eqb c "-" then "text-red-600" else "text-green-600")
      as ->.
    { unfold StatCard.trendClass, StatCard.startsWith.
      destruct (Ascii.eqb_spec c "-") as [->|_]; [done|].
      cbn. by rewrite orb_true_r. }
    destruct (Ascii.eqb c "-") eqn:Hc; split; [|split| |split].
    + split; [intros _; by exists (String c t) | done].
    + split; [done | by intros [H|H]].
    + split; [done|]. intros (t' & [= <-] & _ & H). cbn in H. congruence.
    + split; [done|]. intros (t' & [= <-] & H). cbn in H. congruence.
    + split; [done | by intros [H|H]].
    + split; [intros _; by exists (String c t) | done].
  - split; [|split]; cbn.
    + split; [done | by intros (t & H & _)].
    + split; auto.
    + split; [done | by intros (t & H & _)].
Qed.

(** ** The statements at sample inputs *)

Lemma fetch_all_data_outcome_witness :
  sample_arrival ≡ₚ AnalyticsStore.all_fetches
  ∧ let s' :=
      (AnalyticsStore.fetchAllData flaky (Some "2024-03-01") None
         sample_arrival (sample_store 7) []).1 in
    AnalyticsStore.loading s' = false
    ∧ AnalyticsStore.dateFrom s' = "2024-03-01"
    ∧ AnalyticsStore.dateTo s' = ""
    ∧ AnalyticsStore.overview s' = Some sample_overview
    ∧ AnalyticsStore.teamPerformance s' = []
    ∧ AnalyticsStore.clusteringResults s' = Some (sample_response 7)
    ∧ AnalyticsStore.dailyTrends s' = Some sample_trends
    ∧ AnalyticsStore.productivityRanking s' = [].
Proof.
  split; [unfold sample_arrival, AnalyticsStore.all_fetches;
          solve_Permutation|].
  apply (fetch_all_data_outcome flaky (Some "2024-03-01") None sample_arrival
           (sample_store 7) []).
  unfold sample_arrival, AnalyticsStore.all_fetches. solve_Permutation.
Defined.

Lemma fetch_all_data_error_witness :
  sample_arrival ≡ₚ AnalyticsStore.all_fetches
  ∧ let s' :=
      (AnalyticsStore.fetchAllData flaky (Some "2024-03-01") None
         sample_arrival (sample_store 7) []).1 in
    AnalyticsStore.error s' = Some "Failed to fetch team performance"
    ∧ (AnalyticsStore.error s' = None
       ↔ ∀ a, fails flaky (Some "2024-03-01") None a = false).
Proof.
  split; [unfold sample_arrival, AnalyticsStore.all_fetches;
          solve_Permutation|].
  apply (fetch_all_data_error flaky (Some "2024-03-01") None sample_arrival
           (sample_store 7) []).
  unfold sample_arrival, AnalyticsStore.all_fetches. solve_Permutation.
Defined.

Lemma panel_after_load_witness :
  sample_arrival ≡ₚ AnalyticsStore.all_fetches
  ∧ App.panel
      (AnalyticsStore.fetchAllData flaky None None sample_arrival
         AnalyticsStore.initial []).1
    = App.ErrorPanel "Failed to fetch team performance".
Proof.
  split; [unfold sample_arrival, AnalyticsStore.all_fetches;
          solve_Permutation|].
  apply (panel_after_load flaky None None sample_arrival
           AnalyticsStore.initial []).
  unfold sample_arrival, AnalyticsStore.all_fetches. solve_Permutation.
Defined.

Lemma sorted_employees_ranked_and_stable_witness :
  sample_heap sample_rows !! 0%nat = Some sample_rows
  ∧ ¬ inherited_name "performance_score"
  ∧ let out :=
      PerformanceTable.sortedEmployees 0%nat "performance_score"
        (sample_heap sample_rows) in
    ∃ sorted,
      out.2 !! out.1 = Some sorted
      ∧ StronglySorted (ranks_before (sort_key "performance_score")) sorted
      ∧ ∀ q, with_key (sort_key "performance_score") q sorted
             = with_key (sort_key "performance_score") q sample_rows.
Proof.
  split; [reflexivity|].
  assert (¬ inherited_name "performance_score") as Hplain
    by (intros Hin; apply Hin; reflexivity).
  split; [exact Hplain|].
  apply (sorted_employees_ranked_and_stable 0%nat "performance_score"
           (sample_heap sample_rows) sample_rows);
    [reflexivity | exact Hplain].
Defined.

Lemma top_performers_outrank_the_rest_witness :
  AnalyticsStore.clusteringResults (sample_store 7) = Some (sample_response 7)
  ∧ sample_heap sample_rows !! Api.results (sample_response 7)
    = Some sample_rows
  ∧ let out :=
      AnalyticsStore.topPerformers (sample_store 7) (sample_heap sample_rows)
    in
    ∃ top rest,
      out.2 !! out.1 = Some top
      ∧ sample_rows ≡ₚ top ++ rest
      ∧ ∀ x y, x ∈ top → y ∈ rest → outranks x y.
Proof.
  split; [reflexivity|]. split; [reflexivity|].
  apply (top_performers_outrank_the_rest (sample_store 7)
           (sample_heap sample_rows) (sample_response 7) sample_rows);
    reflexivity.
Defined.

Lemma top_performers_head_the_table_witness :
  AnalyticsStore.clusteringResults (sample_store 7) = Some (sample_response 7)
  ∧ sample_heap sample_rows !! Api.results (sample_response 7)
    = Some sample_rows
  ∧ let top :=
      AnalyticsStore.topPerformers (sample_store 7) (sample_heap sample_rows)
    in
    let table :=
      PerformanceTable.sortedEmployees (Api.results (sample_response 7))
        "performance_score" (sample_heap sample_rows) in
    ∃ sorted,
      table.2 !! table.1 = Some sorted
      ∧ top.2 !! top.1 = Some (take 5 sorted).
Proof.
  split; [reflexivity|]. split; [reflexivity|].
  apply (top_performers_head_the_table (sample_store 7)
           (sample_heap sample_rows) (sample_response 7) sample_rows);
    reflexivity.
Defined.

Lemma badge_class_of_plain_label_witness :
  ¬ inherited_name "Trainee"
  ∧ ∃ c, PerformanceTable.getClusterBadgeClass "Trainee" = JS.VString c
         ∧ (c = "bg-gray-100 text-gray-800" ↔ "Trainee" ∉ cluster_labels).
Proof.
  assert (¬ inherited_name "Trainee") as Hplain
    by (intros Hin; apply Hin; reflexivity).
  split; [exact Hplain|].
  apply (badge_class_of_plain_label "Trainee" Hplain).
Defined.

Lemma cluster_distribution_counts_the_rows_witness :
  AnalyticsStore.clusteringResults (sample_store 7) = Some (sample_response 7)
  ∧ sample_heap sample_rows !! Api.results (sample_response 7)
    = Some sample_rows
  ∧ Forall (λ r, ¬ inherited_name (Api.cluster_label r)) sample_rows
  ∧ let entries :=
      AnalyticsStore.clusterDistribution (sample_store 7)
        (sample_heap sample_rows) in
    NoDup (AnalyticsStore.label <$> entries)
    ∧ (∀ l, l ∈ AnalyticsStore.label <$> entries
            ↔ l ∈ Api.cluster_label <$> sample_rows)
    ∧ Forall (λ e, AnalyticsStore.count e
                   = JS.VNumber
                       (Z.of_nat
                          (occurrences (AnalyticsStore.label e) sample_rows)))
        entries
    ∧ sum_list_with (λ e, counted (AnalyticsStore.count e)) entries = 7%nat.
Proof.
  assert (Forall (λ r, ¬ inherited_name (Api.cluster_label r)) sample_rows)
    as Hplain
    by (repeat constructor; intros Hin; apply Hin; reflexivity).
  split; [reflexivity|]. split; [reflexivity|]. split; [exact Hplain|].
  apply (cluster_distribution_counts_the_rows (sample_store 7)
           (sample_heap sample_rows) (sample_response 7) sample_rows);
    [reflexivity | reflexivity | exact Hplain].
Defined.

Lemma initials_of_words_witness :
  sample_words ≠ []
  ∧ Forall is_word sample_words
  ∧ PerformanceTable.getInitials "siti  nur haliza" = "SN".
Proof.
  assert (sample_words ≠ []) as Hne by discriminate.
  assert (Forall is_word sample_words) as Hwords.
  { unfold sample_words, is_word.
    repeat (apply Forall_cons; split;
            [cbn; repeat (apply Forall_cons; split;
                          [split; [discriminate | vm_compute; lia]|]);
             apply Forall_nil_2|]).
    apply Forall_nil_2. }
  split; [exact Hne|]. split; [exact Hwords|].
  exact (proj1 (initials_of_words sample_words Hne Hwords)).
Defined.

Lemma month_shortcuts_at_or_west_of_utc_witness :
  (-1440 < -300 <= 0)%Z
  ∧ DateRangePicker.local_date (-300) 1710478800000 = (2024, 3, 15)%Z
  ∧ ¬ (0 <= 2024 <= 99)%Z
  ∧ (DateRangePicker.setCurrentMonth (-300) 1710478800000 sample_picker).2
    = [DateRangePicker.UpdateDateFrom "2024-03-01";
       DateRangePicker.UpdateDateTo "2024-03-31"]
  ∧ (DateRangePicker.setLastMonth (-300) 1710478800000 sample_picker).2
    = [DateRangePicker.UpdateDateFrom "2024-02-01";
       DateRangePicker.UpdateDateTo "2024-02-29"].
Proof.
  split; [lia|]. split; [vm_compute; reflexivity|]. split; [lia|].
  apply (month_shortcuts_at_or_west_of_utc (-300) 1710478800000 2024 3 15
           sample_picker); [lia | vm_compute; reflexivity | lia].
Defined.

Lemma month_shortcuts_east_of_utc_day_early_witness :
  (0 < 420 <= 1440)%Z
  ∧ DateRangePicker.local_date 420 1710478800000 = (2024, 3, 15)%Z
  ∧ ¬ (0 <= 2024 <= 99)%Z
  ∧ (DateRangePicker.setCurrentMonth 420 1710478800000 sample_picker).2
    = [DateRangePicker.UpdateDateFrom "2024-02-29";
       DateRangePicker.UpdateDateTo "2024-03-30"]
  ∧ (DateRangePicker.setLastMonth 420 1710478800000 sample_picker).2
    = [DateRangePicker.UpdateDateFrom "2024-01-31";
       DateRangePicker.UpdateDateTo "2024-02-28"].
Proof.
  split; [lia|]. split; [vm_compute; reflexivity|]. split; [lia|].
  apply (month_shortcuts_east_of_utc_day_early 420 1710478800000 2024 3 15
           sample_picker); [lia | vm_compute; reflexivity | lia].
Defined.
